(** * Kiln data model: validation rules of [kiln_ai/datamodel/__init__.py]

    A shallow embedding of the pydantic models of the Kiln data model
    (Project, Task, TaskRequirement, TaskRun, TaskOutput, TaskOutputRating)
    and of their model validators, followed by the properties the
    specification states about them.

    Python's [raise ValueError(...)] is an explicit error value; a validator
    that ends in [return self] returns [Ok tt]. *)

From Stdlib Require Import ZArith QArith Qround String Ascii List Lia.
From Stdlib Require Import SpecFloat.
From stdpp Require Import base option list gmap strings fin_maps.

Local Open Scope string_scope.
Local Open Scope Z_scope.

(* ===================================================================== *)
(** * Errors and results *)

(** [DataSourceType]: the [str]-valued enum of the source. *)
Inductive DataSourceType := human | synthetic.

(** [TaskOutputRatingType]. *)
Inductive TaskOutputRatingType := five_star | custom.

(** One constructor per [raise ValueError] of the module (the message is the
    constructor, the interpolated values its arguments), and one per
    constraint of a pydantic [Field]. *)
Inductive ValueError :=
| InvalidRatingType                       (* "Invalid rating type: ..." *)
| FiveStarNotInteger (rating_name : string)
    (* "... of type five_star must be an integer value (1.0, ..., 5.0)" *)
| FiveStarOutOfRange (rating_name : string)
    (* "... of type five_star must be between 1 and 5 stars" *)
| OutputNotJson                           (* "Output is not a valid JSON object" *)
| OutputSchemaMismatch                    (* "Output does not match task output schema: ..." *)
| InputNotJson                            (* "Input is not a valid JSON object" *)
| InputSchemaMismatch                     (* "Input does not match task input schema: ..." *)
| ParentNotTaskRun                        (* "TaskOutput must have a valid parent TaskRun" *)
| ParentNotTask                           (* "TaskOutput's parent TaskRun must have a valid parent Task" *)
| InvalidRequirementId (key : string)
    (* "Requirement ID '...' is not a valid requirement ID for this task" *)
| InvalidSourceType                       (* "Invalid source type: ..." *)
| SourcePropertyEmpty (key : string) (source : DataSourceType)
    (* "TaskOutput source_properties[...] must not be empty string for ... outputs" *)
| SourcePropertiesMissing (missing_keys : list string) (source : DataSourceType)
    (* "TaskOutput source_properties must include [...] for ... outputs" *)
| PropertyRequired (name : string) (source : DataSourceType)
    (* "'...' is required for ... data source" *)
| PropertyWrongType (name type : string) (source : DataSourceType)
    (* "'...' must be of type ... for ... data source" *)
| PropertyNotAllowed (name : string) (source : DataSourceType)
    (* "'...' is not allowed for ... data source" *)
| StringTooShort (field : string)         (* Field(min_length=...) *)
| StringTooLong (field : string)          (* Field(max_length=...) *)
| StringPatternMismatch (field : string)  (* Field(pattern=...) *)
| InvalidJsonSchema (field : string).     (* JsonObjectSchema *)

Inductive result (A : Type) :=
| Ok (a : A)
| Raise (e : ValueError).
Arguments Ok {A} a.
Arguments Raise {A} e.

(** Sequencing of statements that may raise, in stdpp's monad notation:
    [x ← r; k] and [r ;; k]. *)
#[global] Instance result_ret : MRet result := fun A a => Ok a.
#[global] Instance result_bind : MBind result := fun A B k r =>
  match r with
  | Ok a => k a
  | Raise e => Raise e
  end.

(** [if cond: raise ValueError(e)]. *)
Definition raise_if (cond : bool) (e : ValueError) : result unit :=
  if cond then Raise e else Ok tt.

(** A [for] loop whose body may raise: the first error ends the loop. *)
Fixpoint for_each {A : Type} (body : A -> result unit) (l : list A) : result unit :=
  match l with
  | [] => Ok tt
  | x :: rest => body x ;; for_each body rest
  end.

Definition fails {A : Type} (r : result A) : Prop := exists e, r = Raise e.

(* ===================================================================== *)
(** * Filename compatible names: [NAME_REGEX] and [NAME_FIELD] *)

(** An item of a bracket expression: a range [lo-hi] or a single character. *)
Inductive class_item :=
| CRange (lo hi : ascii)
| CChar (c : ascii).

(** Patterns of the shape [^[...]+$], the only shape the module uses.
    pydantic matches a [pattern] with its regex engine, for which [^] and
    [$] are the two ends of the text. *)
Inductive regex :=
| AnchoredClassPlus (cls : list class_item).

(** r"^[A-Za-z0-9 _-]+$" *)
Definition NAME_REGEX : regex :=
  AnchoredClassPlus
    [CRange "A" "Z"; CRange "a" "z"; CRange "0" "9"; CChar " "; CChar "_"; CChar "-"].

Definition code (c : ascii) : N := N_of_ascii c.

Definition item_matches (c : ascii) (it : class_item) : bool :=
  match it with
  | CRange lo hi => ((code lo <=? code c) && (code c <=? code hi))%N
  | CChar x => (code c =? code x)%N
  end.

Definition class_matches (cls : list class_item) (c : ascii) : bool :=
  existsb (item_matches c) cls.

(** The whole string is matched: the pattern is anchored at both ends and
    [+] asks for at least one character. *)
Definition regex_match (r : regex) (s : string) : bool :=
  match r with
  | AnchoredClassPlus cls =>
      match list_ascii_of_string s with
      | [] => false
      | cs => forallb (class_matches cls) cs
      end
  end.

(** The constraints of a pydantic [Field] on a [str]. *)
Record FieldInfo := Field {
  min_length : option nat;
  max_length : option nat;
  pattern : option regex
}.

(** NAME_FIELD = Field(min_length=1, max_length=120, pattern=NAME_REGEX) *)
Definition NAME_FIELD : FieldInfo :=
  Field (Some 1%nat) (Some 120%nat) (Some NAME_REGEX).

Definition below_min (n : nat) (bound : option nat) : bool :=
  match bound with Some m => (n <? m)%nat | None => false end.
Definition above_max (n : nat) (bound : option nat) : bool :=
  match bound with Some m => (m <? n)%nat | None => false end.
Definition pattern_rejects (p : option regex) (s : string) : bool :=
  match p with Some r => negb (regex_match r s) | None => false end.

(** Validation of one [str] field against its [Field]. *)
Definition validate_str_field (name : string) (f : FieldInfo) (s : string) : result unit :=
  raise_if (below_min (String.length s) (min_length f)) (StringTooShort name) ;;
  raise_if (above_max (String.length s) (max_length f)) (StringTooLong name) ;;
  raise_if (pattern_rejects (pattern f) s) (StringPatternMismatch name).

(* ===================================================================== *)
(** * Python floats *)

(** A Python [float] is an IEEE 754 binary64 value: a signed zero, an
    infinity, a NaN, or a finite number [(-1)^s * m * 2^e]. The operations
    the validators use are exact, so they are given on the value. *)
Definition float : Type := spec_float.

Definition float_value (x : float) : option Q :=
  match x with
  | S754_zero _ => Some 0%Q
  | S754_finite s m e =>
      Some (inject_Z (if s then Z.neg m else Z.pos m) * Qpower 2 e)%Q
  | S754_infinity _ | S754_nan => None
  end.

(** The binary64 nearest to [m * 2^e]; [float_of_Z n] is the float pydantic
    makes of the integer [n] given for a [float] field. *)
Definition float_of_dyadic (m e : Z) : float := binary_normalize 53 1024 m e false.
Definition float_of_Z (n : Z) : float := float_of_dyadic n 0.

(** [float.is_integer()]: false unless finite, else [floor(x) == x]. *)
Definition is_integer (x : float) : bool :=
  match float_value x with
  | Some q => Qeq_bool (inject_Z (Qfloor q)) q
  | None => false
  end.

(** Comparison of a float with a Python [int]: exact on finite values,
    undefined (every comparison false) on NaN. *)
Definition float_compare_int (x : float) (n : Z) : option comparison :=
  match x with
  | S754_nan => None
  | S754_infinity true => Some Lt
  | S754_infinity false => Some Gt
  | _ => match float_value x with
         | Some q => Some (q ?= inject_Z n)%Q
         | None => None
         end
  end.

(** [x < n] and [x > n]. *)
Definition float_lt_int (x : float) (n : Z) : bool :=
  match float_compare_int x n with Some Lt => true | _ => false end.
Definition float_gt_int (x : float) (n : Z) : bool :=
  match float_compare_int x n with Some Gt => true | _ => false end.

(* ===================================================================== *)
(** * The models *)

(** Modelled from the spec: [ID_TYPE] comes from [basemodel.py], which is
    not part of the sources at hand; the specification describes an
    identifier as an opaque stable string. *)
Abbreviation ID_TYPE := string.

#[global] Instance TaskOutputRatingType_eq_dec : EqDecision TaskOutputRatingType.
Proof. solve_decision. Defined.
#[global] Instance DataSourceType_eq_dec : EqDecision DataSourceType.
Proof. solve_decision. Defined.

Inductive Priority := p0 | p1 | p2 | p3.

Inductive TaskDeterminism := deterministic | semantic_match | flexible.

(** ** json, jsonschema and [kiln_ai.datamodel.json_schema]

    The JSON parser and the schema validator are libraries the module
    calls; the validators below are written against this interface.
    - [json_loads s] is [json.loads(s)], [None] when it raises
      [json.JSONDecodeError];
    - [validate_schema instance schema_str] is [true] when the call returns
      and [false] when it raises [jsonschema.exceptions.ValidationError]
      (the schema text of a task has passed [JsonObjectSchema]);
    - [json_object_schema s] tells whether [s] is accepted by the
      [JsonObjectSchema] field type. *)
Class JsonLib := {
  json : Type;
  json_loads : string -> option json;
  validate_schema : json -> string -> bool;
  json_object_schema : string -> bool
}.

(** The value of [self.parent] as the validators inspect it: [None], an
    instance of the class [A] they test with [isinstance], or an instance
    of some other class. *)
Inductive parent_ref (A : Type) :=
| NoParent
| Parent (a : A)
| OtherParent.
Arguments NoParent {A}.
Arguments Parent {A} a.
Arguments OtherParent {A}.

(** [json.loads] followed by [validate_schema] inside the [try] of
    [validate_output_format] and [validate_input_format]; the two errors
    are the ones raised by the two [except] clauses. *)
Definition check_json_text `{JsonLib} (text schema : string)
    (not_json mismatch : ValueError) : result unit :=
  match json_loads text with
  | None => Raise not_json
  | Some instance =>
      if validate_schema instance schema then Ok tt else Raise mismatch
  end.

(** ** TaskOutputRating *)
Module TaskOutputRating.

(** [rating] and the values of [requirement_ratings] are declared [float]:
    pydantic has converted them before the model validator runs, so
    [isinstance(rating, float)] holds by the type. A dict is a finite map;
    [items()] is its list of bindings (the order only decides which of
    several errors is reported). *)
Record t := {
  type : TaskOutputRatingType;
  rating : float;
  requirement_ratings : gmap ID_TYPE float
}.

(** The members of the enum, for [self.type not in TaskOutputRatingType]. *)
Definition members : list TaskOutputRatingType := [five_star; custom].

Definition _validate_five_star (rating : float) (rating_name : string) : result unit :=
  raise_if (negb (is_integer rating)) (FiveStarNotInteger rating_name) ;;
  raise_if (float_lt_int rating 1 || float_gt_int rating 5)
           (FiveStarOutOfRange rating_name).

Definition validate_rating (self : t) : result unit :=
  raise_if (negb (bool_decide (type self ∈ members))) InvalidRatingType ;;
  if decide (type self = five_star) then
    _validate_five_star (rating self) "overall rating" ;;
    for_each
      (fun item : ID_TYPE * float =>
         _validate_five_star item.2 ("requirement rating for " +:+ item.1))
      (map_to_list (requirement_ratings self))
  else Ok tt.

(** The model validators of the class, as pydantic runs them. *)
Definition validate (self : t) : result unit := validate_rating self.

End TaskOutputRating.

(** ** TaskRequirement *)
Module TaskRequirement.

Record t := {
  id : ID_TYPE;
  name : string;
  description : string;
  instruction : string;
  priority : Priority
}.

(** [name: str = NAME_FIELD], [instruction: str = Field(min_length=1)]. *)
Definition validate (self : t) : result unit :=
  validate_str_field "name" NAME_FIELD (name self) ;;
  validate_str_field "instruction" (Field (Some 1%nat) None None) (instruction self).

End TaskRequirement.

(** ** Task *)
Module Task.

(** [requirements] is what [self.requirements()] returns: the
    TaskRequirement children of the task. *)
Record t := {
  name : string;
  description : string;
  priority : Priority;
  determinism : TaskDeterminism;
  instruction : string;
  output_json_schema : option string;
  input_json_schema : option string;
  requirements : list TaskRequirement.t
}.

Definition validate_schema_field `{JsonLib} (field : string) (v : option string) : result unit :=
  match v with
  | None => Ok tt
  | Some s => raise_if (negb (json_object_schema s)) (InvalidJsonSchema field)
  end.

Definition validate `{JsonLib} (self : t) : result unit :=
  validate_str_field "name" NAME_FIELD (name self) ;;
  validate_str_field "instruction" (Field (Some 1%nat) None None) (instruction self) ;;
  validate_schema_field "output_json_schema" (output_json_schema self) ;;
  validate_schema_field "input_json_schema" (input_json_schema self).

End Task.

(** ** Project *)
Module Project.

Record t := {
  name : string;
  description : string
}.

Definition validate (self : t) : result unit :=
  validate_str_field "name" NAME_FIELD (name self).

End Project.

(** ** DataSource *)
Module DataSource.

(** A value of [properties]: [str | int | float]. *)
Inductive value :=
| VStr (s : string)
| VInt (n : Z)
| VFloat (x : float).

(** [DataSourceProperty]; [type] is one of the literals str, int, float. *)
Record DataSourceProperty := {
  name : string;
  type : string;
  required_for : list DataSourceType;
  not_allowed_for : list DataSourceType
}.

Record t := {
  source_type : DataSourceType;                (* [type] *)
  properties : gmap string value
}.

Definition _data_source_properties : list DataSourceProperty :=
  [ {| name := "created_by"; type := "str";
       required_for := [human]; not_allowed_for := [synthetic] |};
    {| name := "model_name"; type := "str";
       required_for := [synthetic]; not_allowed_for := [human] |};
    {| name := "model_provider"; type := "str";
       required_for := [synthetic]; not_allowed_for := [human] |};
    {| name := "prompt_type"; type := "str";
       required_for := []; not_allowed_for := [human] |} ].

(** [isinstance(v, eval(type))] *)
Definition isinstance (v : value) (type : string) : bool :=
  match v with
  | VStr _ => String.eqb type "str"
  | VInt _ => String.eqb type "int"
  | VFloat _ => String.eqb type "float"
  end.

Definition validate_property (self : t) (prop : DataSourceProperty) : result unit :=
  if bool_decide (source_type self ∈ required_for prop) then
    match properties self !! name prop with
    | None => Raise (PropertyRequired (name prop) (source_type self))
    | Some v =>
        raise_if (negb (isinstance v (type prop)))
                 (PropertyWrongType (name prop) (type prop) (source_type self))
    end
  else
    raise_if (bool_decide (source_type self ∈ not_allowed_for prop)
              && bool_decide (is_Some (properties self !! name prop)))
             (PropertyNotAllowed (name prop) (source_type self)).

Definition validate_properties (self : t) : result unit :=
  for_each (validate_property self) _data_source_properties.

End DataSource.

(** ** TaskRun *)
Module TaskRun.

(** [parent] is the value of [self.parent] (the object given at
    construction, or the one found from the path). *)
Record t := {
  input : string;
  source : DataSourceType;
  source_properties : gmap string string;
  parent : parent_ref Task.t
}.

(** [self.source = source; self.source_properties = source_properties] *)
Definition set_source (self : t) (source : DataSourceType)
    (source_properties : gmap string string) : t :=
  {| input := input self;
     source := source;
     source_properties := source_properties;
     parent := parent self |}.

Definition parent_task (self : t) : option Task.t :=
  match parent self with
  | Parent task => Some task
  | _ => None
  end.

Definition validate_input_format `{JsonLib} (self : t) : result unit :=
  match parent self with
  | NoParent => Ok tt
  | OtherParent => Raise ParentNotTask
  | Parent task =>
      match Task.input_json_schema task with
      | Some schema =>
          check_json_text (input self) schema InputNotJson InputSchemaMismatch
      | None => Ok tt
      end
  end.

(** The model validators of the class, as pydantic runs them: the class
    declares one; the fields are unconstrained [str], enum and dict. *)
Definition validate `{JsonLib} (self : t) : result unit :=
  validate_input_format self.

End TaskRun.

(** ** TaskOutput *)
Module TaskOutput.

(** [rating] holds a TaskOutputRating that was validated when it was built. *)
Record t := {
  output : string;
  source : DataSourceType;
  source_properties : gmap string string;
  rating : option TaskOutputRating.t;
  fixed_output : option string;
  parent : parent_ref TaskRun.t
}.

(** [self.parent = parent] *)
Definition set_parent (self : t) (parent : parent_ref TaskRun.t) : t :=
  {| output := output self;
     source := source self;
     source_properties := source_properties self;
     rating := rating self;
     fixed_output := fixed_output self;
     parent := parent |}.

Definition parent_task_run (self : t) : parent_ref TaskRun.t :=
  match parent self with
  | Parent run => Parent run
  | _ => NoParent
  end.

Definition task_for_validation (self : t) : result (option Task.t) :=
  match parent_task_run self with
  | NoParent => Ok None
  | OtherParent => Raise ParentNotTaskRun
  | Parent task_output =>
      match TaskRun.parent task_output with
      | NoParent => Ok None
      | OtherParent => Raise ParentNotTask
      | Parent task => Ok (Some task)
      end
  end.

Definition validate_output_format `{JsonLib} (self : t) : result unit :=
  task ← task_for_validation self;
  match task with
  | None => Ok tt
  | Some task =>
      match Task.output_json_schema task with
      | Some schema =>
          check_json_text (output self) schema OutputNotJson OutputSchemaMismatch
      | None => Ok tt
      end
  end.

(** {req.id for req in task.requirements()} *)
Definition valid_requirement_ids (task : Task.t) : gset ID_TYPE :=
  list_to_set (TaskRequirement.id <$> Task.requirements task).

Definition validate_requirement_rating_keys (self : t) : result unit :=
  match rating self with
  | None => Ok tt
  | Some r =>
      if bool_decide (size (TaskOutputRating.requirement_ratings r) = 0%nat) then Ok tt
      else
        task ← task_for_validation self;
        match task with
        | None => Ok tt
        | Some task =>
            for_each
              (fun key : ID_TYPE =>
                 raise_if (negb (bool_decide (key ∈ valid_requirement_ids task)))
                          (InvalidRequirementId key))
              (map_to_list (TaskOutputRating.requirement_ratings r)).*1
        end
  end.

(** The keys each source must give. [required_keys] is a Python set: the
    order of its elements, taken here as written, only decides which key an
    error names or lists first. *)
Definition required_keys (source : DataSourceType) : result (list string) :=
  if decide (source = synthetic) then
    Ok ["adapter_name"; "model_name"; "model_provider"; "prompt_builder_name"]
  else if decide (source = human) then
    Ok ["creator"]
  else Raise InvalidSourceType.

(** The loop over [required_keys], with [missing_keys] as accumulator. *)
Fixpoint collect_missing_keys (source : DataSourceType)
    (source_properties : gmap string string)
    (keys missing_keys : list string) : result (list string) :=
  match keys with
  | [] => Ok missing_keys
  | key :: rest =>
      match source_properties !! key with
      | None =>
          collect_missing_keys source source_properties rest (missing_keys ++ [key])
      | Some v =>
          if decide (v = EmptyString) then Raise (SourcePropertyEmpty key source)
          else collect_missing_keys source source_properties rest missing_keys
      end
  end.

Definition validate_source_properties (self : t) : result unit :=
  required_keys ← required_keys (source self);
  missing_keys ← collect_missing_keys (source self) (source_properties self)
                    required_keys [];
  raise_if (0 <? length missing_keys)%nat
           (SourcePropertiesMissing missing_keys (source self)).

(** The model validators that the class declares, in the order pydantic
    runs them, which is the order of their definition; the first error is
    the one reported. Those that the class inherits are defined in
    [basemodel.py]. *)
Definition validate `{JsonLib} (self : t) : result unit :=
  validate_output_format self ;;
  validate_requirement_rating_keys self ;;
  validate_source_properties self.

End TaskOutput.

(* ===================================================================== *)
(** * Saving and the kinds of errors *)

(** Modelled from the spec: [save_to_file] is defined in [basemodel.py],
    which is not among the sources at hand. The specification has save run
    all validators immediately before writing and refuse to write on any
    validation failure, leaving the on-disk state untouched. [validation]
    is the outcome of the validators of the entity, [write] the effect of
    writing its file. *)
Definition save_to_file {Disk : Type} (validation : result unit)
    (write : Disk -> Disk) (disk : Disk) : result Disk :=
  validation ;; Ok (write disk).

Inductive ErrorKind :=
| FormatError
| SchemaCompileError
| SchemaMismatchError
| ReferenceError
| ConstraintError.

(** Modelled from the spec: the code raises [ValueError] throughout; the
    specification sorts the failures into kinds: malformed JSON in a text
    field, a malformed schema document, an instance that does not satisfy
    its schema, a key that references a nonexistent sibling, and field-level
    range, required-key and forbidden-key violations. The two errors about
    the class of a parent are not among them. *)
Definition error_kind (e : ValueError) : option ErrorKind :=
  match e with
  | OutputNotJson | InputNotJson => Some FormatError
  | InvalidJsonSchema _ => Some SchemaCompileError
  | OutputSchemaMismatch | InputSchemaMismatch => Some SchemaMismatchError
  | InvalidRequirementId _ => Some ReferenceError
  | InvalidRatingType | FiveStarNotInteger _ | FiveStarOutOfRange _
  | InvalidSourceType | SourcePropertyEmpty _ _ | SourcePropertiesMissing _ _
  | PropertyRequired _ _ | PropertyWrongType _ _ _ | PropertyNotAllowed _ _
  | StringTooShort _ | StringTooLong _ | StringPatternMismatch _ =>
      Some ConstraintError
  | ParentNotTaskRun | ParentNotTask => None
  end.

(* ===================================================================== *)
(** * A small JSON library

    An instance of [JsonLib] with which the validators run on concrete
    texts. It reads a fragment of JSON (null, booleans, integers, strings
    without escapes, arrays, objects) and checks the schema keywords
    [type], [properties] and [required]; the properties below are proved
    for every instance, and use this one only to evaluate examples. *)
Module MiniJson.

#[local] Unset Elimination Schemes.
Inductive value :=
| JNull
| JBool (b : bool)
| JInt (n : Z)
| JString (s : string)
| JArray (items : list value)
| JObject (members : list (string * value)).
#[local] Set Elimination Schemes.

Definition dquote : ascii := "034"%char.

Definition is_ws (c : ascii) : bool :=
  match c with
  | " "%char | "009"%char | "010"%char | "013"%char => true
  | _ => false
  end.

Fixpoint skip_ws (cs : list ascii) : list ascii :=
  match cs with
  | c :: rest => if is_ws c then skip_ws rest else cs
  | [] => []
  end.

Definition digit_of (c : ascii) : option Z :=
  let n := Z.of_N (N_of_ascii c) in
  if (48 <=? n) && (n <=? 57) then Some (n - 48) else None.

(** The digits at the head of [cs], read onto [acc]. *)
Fixpoint read_digits (acc : Z) (cs : list ascii) : Z * list ascii :=
  match cs with
  | c :: rest =>
      match digit_of c with
      | Some d => read_digits (10 * acc + d) rest
      | None => (acc, cs)
      end
  | [] => (acc, [])
  end.

Definition read_nat (cs : list ascii) : option (Z * list ascii) :=
  match cs with
  | c :: _ => match digit_of c with
              | Some _ => Some (read_digits 0 cs)
              | None => None
              end
  | [] => None
  end.

(** The characters up to the closing quote; a backslash is not read. *)
Fixpoint read_string (cs : list ascii) : option (string * list ascii) :=
  match cs with
  | [] => None
  | c :: rest =>
      if Ascii.eqb c dquote then Some (EmptyString, rest)
      else if Ascii.eqb c "\"%char then None
      else match read_string rest with
           | Some (s, rest') => Some (String c s, rest')
           | None => None
           end
  end.

(** Recursive descent; [fuel] bounds the depth and the number of items. *)
Fixpoint parse_value (fuel : nat) (cs : list ascii) : option (value * list ascii) :=
  match fuel with
  | O => None
  | S fuel =>
      match skip_ws cs with
      | "n"%char :: "u"%char :: "l"%char :: "l"%char :: rest => Some (JNull, rest)
      | "t"%char :: "r"%char :: "u"%char :: "e"%char :: rest => Some (JBool true, rest)
      | "f"%char :: "a"%char :: "l"%char :: "s"%char :: "e"%char :: rest =>
          Some (JBool false, rest)
      | "["%char :: rest =>
          match skip_ws rest with
          | "]"%char :: rest' => Some (JArray [], rest')
          | _ => match parse_items fuel rest with
                 | Some (items, rest') => Some (JArray items, rest')
                 | None => None
                 end
          end
      | "{"%char :: rest =>
          match skip_ws rest with
          | "}"%char :: rest' => Some (JObject [], rest')
          | _ => match parse_members fuel rest with
                 | Some (members, rest') => Some (JObject members, rest')
                 | None => None
                 end
          end
      | "-"%char :: rest =>
          match read_nat rest with
          | Some (n, rest') => Some (JInt (- n), rest')
          | None => None
          end
      | c :: rest =>
          if Ascii.eqb c dquote then
            match read_string rest with
            | Some (s, rest') => Some (JString s, rest')
            | None => None
            end
          else
            match read_nat (c :: rest) with
            | Some (n, rest') => Some (JInt n, rest')
            | None => None
            end
      | [] => None
      end
  end
with parse_items (fuel : nat) (cs : list ascii) : option (list value * list ascii) :=
  match fuel with
  | O => None
  | S fuel =>
      match parse_value fuel cs with
      | Some (v, rest) =>
          match skip_ws rest with
          | ","%char :: rest' =>
              match parse_items fuel rest' with
              | Some (vs, rest'') => Some (v :: vs, rest'')
              | None => None
              end
          | "]"%char :: rest' => Some ([v], rest')
          | _ => None
          end
      | None => None
      end
  end
with parse_members (fuel : nat) (cs : list ascii)
    : option (list (string * value) * list ascii) :=
  match fuel with
  | O => None
  | S fuel =>
      match skip_ws cs with
      | c :: rest =>
          if Ascii.eqb c dquote then
            match read_string rest with
            | Some (k, rest1) =>
                match skip_ws rest1 with
                | ":"%char :: rest2 =>
                    match parse_value fuel rest2 with
                    | Some (v, rest3) =>
                        match skip_ws rest3 with
                        | ","%char :: rest4 =>
                            match parse_members fuel rest4 with
                            | Some (ms, rest5) => Some ((k, v) :: ms, rest5)
                            | None => None
                            end
                        | "}"%char :: rest4 => Some ([(k, v)], rest4)
                        | _ => None
                        end
                    | None => None
                    end
                | _ => None
                end
            | None => None
            end
          else None
      | [] => None
      end
  end.

(** [json.loads]: one value, with nothing but white space after it. *)
Definition loads (s : string) : option value :=
  let cs := list_ascii_of_string s in
  match parse_value (S (length cs)) cs with
  | Some (v, rest) => match skip_ws rest with [] => Some v | _ => None end
  | None => None
  end.

(** [obj.get(key)]; of a repeated key the last value counts. *)
Fixpoint member (key : string) (members : list (string * value)) : option value :=
  match members with
  | [] => None
  | (k, v) :: rest =>
      match member key rest with
      | Some v' => Some v'
      | None => if String.eqb k key then Some v else None
      end
  end.

Definition has_type (ty : string) (v : value) : bool :=
  match v with
  | JNull => String.eqb ty "null"
  | JBool _ => String.eqb ty "boolean"
  | JInt _ => String.eqb ty "integer" || String.eqb ty "number"
  | JString _ => String.eqb ty "string"
  | JArray _ => String.eqb ty "array"
  | JObject _ => String.eqb ty "object"
  end.

(** The instance satisfies the keywords [type], [required] and
    [properties] of the schema. *)
Fixpoint satisfies (fuel : nat) (instance schema : value) : bool :=
  match fuel with
  | O => false
  | S fuel =>
      match schema with
      | JObject keywords =>
          match member "type" keywords with
          | Some (JString ty) => has_type ty instance
          | _ => true
          end
          &&
          match instance with
          | JObject fields =>
              match member "required" keywords with
              | Some (JArray names) =>
                  forallb (fun name =>
                             match name with
                             | JString k => bool_decide (is_Some (member k fields))
                             | _ => true
                             end) names
              | _ => true
              end
              &&
              match member "properties" keywords with
              | Some (JObject props) =>
                  forallb (fun prop : string * value =>
                             match member prop.1 fields with
                             | Some v => satisfies fuel v prop.2
                             | None => true
                             end) props
              | _ => true
              end
          | _ => true
          end
      | _ => true
      end
  end.

Definition validate (instance : value) (schema_str : string) : bool :=
  match loads schema_str with
  | Some schema => satisfies (S (String.length schema_str)) instance schema
  | None => false
  end.

(** The schema of a task is an object schema with properties. *)
Definition object_schema (schema_str : string) : bool :=
  match loads schema_str with
  | Some (JObject keywords) =>
      match member "type" keywords, member "properties" keywords with
      | Some (JString ty), Some (JObject _) => String.eqb ty "object"
      | _, _ => false
      end
  | _ => false
  end.

Definition lib : JsonLib := {|
  json := value;
  json_loads := loads;
  validate_schema := validate;
  json_object_schema := object_schema
|}.

(** Texts are written with [q] for the quotation mark. *)
Definition q (s : string) : string := String dquote (s +:+ String dquote EmptyString).

End MiniJson.

(* ===================================================================== *)
(** * The store of entities

    Modelled from the spec: the persistence layer (the base entity, the
    parented entity and the parent container of [basemodel.py]) is not among
    the sources at hand. What follows is the specification's account of it:
    the fields common to every entity, the layout of the files, [save],
    [load], the parent found from the path and the children found by
    listing a directory. A file is represented by the entity whose fields it
    holds; the JSON text of these fields is pydantic's. *)
Module Store.

#[local] Open Scope list_scope.

(** A path is the list of its segments. *)
Abbreviation Path := (list string).

Inductive Model :=
| MProject (p : Project.t)
| MTask (t : Task.t)
| MTaskRequirement (r : TaskRequirement.t)
| MTaskRun (r : TaskRun.t)
| MTaskOutput (o : TaskOutput.t).

(** Common to every entity: [id], [path] (absent until saved),
    [created_at] (set on the first save), [created_by]. *)
Record Entity := {
  id : option ID_TYPE;
  path : option Path;
  created_at : option N;
  created_by : option string;
  model : Model
}.

(** The content of a file: the JSON object of an entity, or anything else. *)
Inductive File :=
| Json (doc : Entity)
| Malformed.

Abbreviation Disk := (gmap Path File).


(** The fixed name of the file of each type of entity. *)
Definition base_filename (m : Model) : string :=
  match m with
  | MProject _ => "project.json"
  | MTask _ => "task.json"
  | MTaskRequirement _ => "task_requirement.json"
  | MTaskRun _ => "task_run.json"
  | MTaskOutput _ => "task_output.json"
  end.

(** The directory of the parent of the entity in [dir]: above the
    directory of the relationship, [.../<relationship>/<id>]. *)
Definition parent_dir (dir : Path) : Path := take (length dir - 2) dir.

Definition set_requirements (t : Task.t) (reqs : list TaskRequirement.t) : Task.t :=
  {| Task.name := Task.name t;
     Task.description := Task.description t;
     Task.priority := Task.priority t;
     Task.determinism := Task.determinism t;
     Task.instruction := Task.instruction t;
     Task.output_json_schema := Task.output_json_schema t;
     Task.input_json_schema := Task.input_json_schema t;
     Task.requirements := reqs |}.

Definition set_run_parent (r : TaskRun.t) (parent : parent_ref Task.t) : TaskRun.t :=
  {| TaskRun.input := TaskRun.input r;
     TaskRun.source := TaskRun.source r;
     TaskRun.source_properties := TaskRun.source_properties r;
     TaskRun.parent := parent |}.

Definition set_requirement_id (r : TaskRequirement.t) (i : ID_TYPE) : TaskRequirement.t :=
  {| TaskRequirement.id := i;
     TaskRequirement.name := TaskRequirement.name r;
     TaskRequirement.description := TaskRequirement.description r;
     TaskRequirement.instruction := TaskRequirement.instruction r;
     TaskRequirement.priority := TaskRequirement.priority r |}.

(** The file is that of a requirement of the task in [task_dir]:
    [<task_dir>/requirements/<id>/task_requirement.json]. *)
Definition requirement_file (task_dir : Path) (file : Path * File) : Prop :=
  exists i : string, file.1 = task_dir ++ ["requirements"; i; "task_requirement.json"].

#[global] Instance requirement_file_dec (task_dir : Path) (file : Path * File) :
  Decision (requirement_file task_dir file).
Proof.
  unfold requirement_file.
  destruct (file.1 !! S (length task_dir)) as [i|] eqn:Hi.
  - destruct (decide (file.1 = task_dir ++ ["requirements"; i; "task_requirement.json"]))
      as [Heq|Hne].
    + left. exists i. exact Heq.
    + right. intros [j Hj]. apply Hne.
      rewrite Hj in Hi.
      rewrite lookup_app_r in Hi by lia.
      replace (S (length task_dir) - length task_dir)%nat with 1%nat in Hi by lia.
      simpl in Hi. injection Hi as ->. exact Hj.
  - right. intros [j Hj]. rewrite Hj in Hi.
    rewrite lookup_app_r in Hi by lia.
    replace (S (length task_dir) - length task_dir)%nat with 1%nat in Hi by lia.
    discriminate.
Defined.

Definition requirement_of (f : File) : option TaskRequirement.t :=
  match f with
  | Json doc => match model doc with
                | MTaskRequirement r => Some r
                | _ => None
                end
  | Malformed => None
  end.

(** The children of a task: the files of its requirements directory. *)
Definition requirements_at (disk : Disk) (task_dir : Path) : list TaskRequirement.t :=
  omap (fun file : Path * File => requirement_of file.2)
       (map_to_list (filter (requirement_file task_dir) disk)).

(** The task whose file is in [dir], as the parent of a run. *)
Definition task_at (disk : Disk) (dir : Path) : parent_ref Task.t :=
  match disk !! (dir ++ ["task.json"]) with
  | Some (Json doc) =>
      match model doc with
      | MTask t => Parent (set_requirements t (requirements_at disk dir))
      | _ => OtherParent
      end
  | _ => NoParent
  end.

(** The run whose file is in [dir], as the parent of an output. *)
Definition run_at (disk : Disk) (dir : Path) : parent_ref TaskRun.t :=
  match disk !! (dir ++ ["task_run.json"]) with
  | Some (Json doc) =>
      match model doc with
      | MTaskRun r => Parent (set_run_parent r (task_at disk (parent_dir dir)))
      | _ => OtherParent
      end
  | _ => NoParent
  end.

(** The entity of directory [dir] with its ancestors as they are on disk
    when it is validated. *)
Definition attach (disk : Disk) (dir : Path) (m : Model) : Model :=
  match m with
  | MTaskRun r => MTaskRun (set_run_parent r (task_at disk (parent_dir dir)))
  | MTaskOutput o => MTaskOutput (TaskOutput.set_parent o (run_at disk (parent_dir dir)))
  | MTask t => MTask (set_requirements t (requirements_at disk dir))
  | _ => m
  end.

(** The validators of the entity. *)
Definition validate `{JsonLib} (m : Model) : result unit :=
  match m with
  | MProject p => Project.validate p
  | MTask t => Task.validate t
  | MTaskRequirement r => TaskRequirement.validate r
  | MTaskRun r => TaskRun.validate r
  | MTaskOutput o => TaskOutput.validate o
  end.

(** What the file keeps of a model: its own fields, neither the parent nor
    the children. *)
Definition persisted_model (m : Model) : Model :=
  match m with
  | MTask t => MTask (set_requirements t [])
  | MTaskRun r => MTaskRun (set_run_parent r NoParent)
  | MTaskOutput o => MTaskOutput (TaskOutput.set_parent o NoParent)
  | _ => m
  end.

(** The persisted fields of an entity: all but its path. *)
Definition persisted (e : Entity) : Entity :=
  {| id := id e;
     path := None;
     created_at := created_at e;
     created_by := created_by e;
     model := persisted_model (model e) |}.

(** The id of a requirement is the one its validating siblings read. *)
Definition with_id (i : ID_TYPE) (m : Model) : Model :=
  match m with
  | MTaskRequirement r => MTaskRequirement (set_requirement_id r i)
  | _ => m
  end.

(** [id] and [created_at] are assigned if unset; [fresh] comes from the
    identifier generator and [now] from the clock. *)
Definition assign (fresh : ID_TYPE) (now : N) (p : Path) (e : Entity) : Entity :=
  let i := default fresh (id e) in
  {| id := Some i;
     path := Some p;
     created_at := Some (default now (created_at e));
     created_by := created_by e;
     model := with_id i (model e) |}.

(** [save]: the entity goes to the file of its type in [dir]; the
    validators run just before the write, against the ancestors on disk,
    and a failure leaves the disk as it was. The entity is returned as the
    save leaves it. *)
Definition save `{JsonLib} (disk : Disk) (dir : Path) (fresh : ID_TYPE) (now : N)
    (e : Entity) : result (Entity * Disk) :=
  let p := dir ++ [base_filename (model e)] in
  let e' := assign fresh now p e in
  disk' ← save_to_file (validate (attach disk dir (model e')))
                       (insert p (Json (persisted e'))) disk;
  Ok (e', disk').


End Store.

(* ===================================================================== *)
(** * Entities of the test suite

    The hierarchy of [test_example_models.py], on which the validators are
    evaluated with the small JSON library. *)
Module Examples.

Import MiniJson.

(** The schema of the tests: an object with a string [name] and an integer
    [age], both required. *)
Definition person_schema : string :=
  "{" +:+ q "type" +:+ ": " +:+ q "object" +:+ ", " +:+
  q "properties" +:+ ": {" +:+
    q "name" +:+ ": {" +:+ q "type" +:+ ": " +:+ q "string" +:+ "}, " +:+
    q "age" +:+ ": {" +:+ q "type" +:+ ": " +:+ q "integer" +:+ "}}, " +:+
  q "required" +:+ ": [" +:+ q "name" +:+ ", " +:+ q "age" +:+ "]}".

(** The text [{name: John Doe, age: 30}], with its keys and name quoted. *)
Definition john_30 : string :=
  "{" +:+ q "name" +:+ ": " +:+ q "John Doe" +:+ ", " +:+ q "age" +:+ ": 30}".

(** The same with the age given as the string [thirty]. *)
Definition john_thirty : string :=
  "{" +:+ q "name" +:+ ": " +:+ q "John Doe" +:+ ", " +:+
  q "age" +:+ ": " +:+ q "thirty" +:+ "}".

Definition req1 : TaskRequirement.t :=
  {| TaskRequirement.id := "req1";
     TaskRequirement.name := "Requirement 1";
     TaskRequirement.description := EmptyString;
     TaskRequirement.instruction := "Requirement 1 instruction";
     TaskRequirement.priority := p2 |}.

Definition req2 : TaskRequirement.t :=
  {| TaskRequirement.id := "req2";
     TaskRequirement.name := "Requirement 2";
     TaskRequirement.description := EmptyString;
     TaskRequirement.instruction := "Requirement 2 instruction";
     TaskRequirement.priority := p2 |}.

Definition project : Project.t :=
  {| Project.name := "Test Project"; Project.description := EmptyString |}.

(** A task with the given schemas and the two requirements. *)
Definition task (output_schema input_schema : option string) : Task.t :=
  {| Task.name := "Test Task";
     Task.description := EmptyString;
     Task.priority := p2;
     Task.determinism := flexible;
     Task.instruction := "test instruction";
     Task.output_json_schema := output_schema;
     Task.input_json_schema := input_schema;
     Task.requirements := [req1; req2] |}.

Definition structured_task : Task.t := task (Some person_schema) (Some person_schema).
Definition output_task : Task.t := task (Some person_schema) None.
Definition plain_task : Task.t := task None None.

Definition by_john_doe : gmap string string := {[ "creator" := "john_doe" ]}.

Definition run (input : string) (parent : parent_ref Task.t) : TaskRun.t :=
  {| TaskRun.input := input;
     TaskRun.source := human;
     TaskRun.source_properties := by_john_doe;
     TaskRun.parent := parent |}.

(** A run as the tests build it: human, and no source properties given. *)
Definition bare_run (input : string) (parent : parent_ref Task.t) : TaskRun.t :=
  {| TaskRun.input := input;
     TaskRun.source := human;
     TaskRun.source_properties := ∅;
     TaskRun.parent := parent |}.

Definition human_output (output : string) (props : gmap string string)
    (rating : option TaskOutputRating.t) (parent : parent_ref TaskRun.t) : TaskOutput.t :=
  {| TaskOutput.output := output;
     TaskOutput.source := human;
     TaskOutput.source_properties := props;
     TaskOutput.rating := rating;
     TaskOutput.fixed_output := None;
     TaskOutput.parent := parent |}.

Definition model_properties : gmap string string :=
  {[ "adapter_name" := "TestAdapter"; "model_name" := "GPT-4";
     "model_provider" := "OpenAI"; "prompt_builder_name" := "TestPromptBuilder" ]}.

Definition synthetic_output (output : string) (parent : parent_ref TaskRun.t) : TaskOutput.t :=
  {| TaskOutput.output := output;
     TaskOutput.source := synthetic;
     TaskOutput.source_properties := model_properties;
     TaskOutput.rating := None;
     TaskOutput.fixed_output := None;
     TaskOutput.parent := parent |}.

Definition stars (type : TaskOutputRatingType) (rating : float)
    (requirement_ratings : gmap ID_TYPE float) : TaskOutputRating.t :=
  {| TaskOutputRating.type := type;
     TaskOutputRating.rating := rating;
     TaskOutputRating.requirement_ratings := requirement_ratings |}.

(** rating=4, requirement_ratings={req1: 5, req2: 4} *)
Definition good_rating : TaskOutputRating.t :=
  stars five_star (float_of_Z 4) {[ "req1" := float_of_Z 5; "req2" := float_of_Z 4 ]}.



(** A new entity: nothing assigned yet. *)
Definition new_entity (m : Store.Model) : Store.Entity :=
  {| Store.id := None; Store.path := None;
     Store.created_at := None; Store.created_by := None;
     Store.model := m |}.

Definition task_dir : list string := ["Test Project"; "tasks"; "t1"].
Definition run_dir : list string := (task_dir ++ ["runs"; "r1"])%list.

(** A disk that holds a task with an output schema, its two requirements
    and a run. *)
Definition disk : gmap (list string) Store.File :=
  {[ (task_dir ++ ["task.json"])%list :=
       Store.Json (new_entity (Store.MTask output_task));
     (task_dir ++ ["requirements"; "req1"; "task_requirement.json"])%list :=
       Store.Json (new_entity (Store.MTaskRequirement req1));
     (task_dir ++ ["requirements"; "req2"; "task_requirement.json"])%list :=
       Store.Json (new_entity (Store.MTaskRequirement req2));
     (run_dir ++ ["task_run.json"])%list :=
       Store.Json (new_entity (Store.MTaskRun (run "Test input" NoParent))) ]}.


End Examples.

(* ===================================================================== *)
(** * The vocabulary of the properties *)

Definition between (lo hi c : ascii) : Prop := (code lo <= code c <= code hi)%N.

(** A character of [[A-Za-z0-9 _-]]. *)
Definition name_char (c : ascii) : Prop :=
  between "A" "Z" c \/ between "a" "z" c \/ between "0" "9" c \/
  c = " "%char \/ c = "_"%char \/ c = "-"%char.

(** Only characters of [[A-Za-z0-9 _-]], and 1 to 120 of them. *)
Definition filename_safe (s : string) : Prop :=
  Forall name_char (list_ascii_of_string s) /\
  (1 <= String.length s <= 120)%nat.

(** The value has no fractional part. *)
Definition no_fraction (q : Q) : Prop := exists n : Z, (q == inject_Z n)%Q.

(** A finite float without fractional part, between 1 and 5. *)
Definition whole_stars (x : float) : Prop :=
  exists q, float_value x = Some q /\ no_fraction q /\ (1 <= q)%Q /\ (q <= 5)%Q.

(** The text parses as JSON and the parsed value validates against the schema. *)
Definition conforms `{JsonLib} (text schema : string) : Prop :=
  exists instance, json_loads text = Some instance /\
                   validate_schema instance schema = true.

(** The TaskRun has the task as parent. *)
Definition run_of_task (r : TaskRun.t) (task : Task.t) : Prop :=
  TaskRun.parent r = Parent task.

(** The parent chain of the output resolves to the task: its parent is a
    TaskRun whose parent is the task. *)
Definition output_of_task (o : TaskOutput.t) (task : Task.t) : Prop :=
  exists run, TaskOutput.parent o = Parent run /\ run_of_task run task.

(** The output has no resolvable parent chain: no TaskRun above it, or a
    TaskRun without parent. *)
Definition detached (o : TaskOutput.t) : Prop :=
  match TaskOutput.parent o with
  | Parent run => TaskRun.parent run = NoParent
  | _ => True
  end.


(** The keys [validate_source_properties] requires of each source. *)
Definition keys_required_for (source : DataSourceType) : list string :=
  match source with
  | human => ["creator"]
  | synthetic => ["adapter_name"; "model_name"; "model_provider"; "prompt_builder_name"]
  end.

(** The key is present with a non-empty value. *)
Definition present_non_empty (props : gmap string string) (k : string) : Prop :=
  exists v, props !! k = Some v /\ v <> EmptyString.


(** The table of [DataSource] does not allow the key for the source. *)
Definition not_allowed_key (source : DataSourceType) (k : string) : Prop :=
  exists prop, prop ∈ DataSource._data_source_properties /\
               DataSource.name prop = k /\
               source ∈ DataSource.not_allowed_for prop.

(* ===================================================================== *)
(** * The enumerations by value *)

(** [cls(value)] for an [Enum] class: the member that has this value,
    looked up among the members in the order of their definition; [None]
    when Python raises [ValueError]. *)
Definition enum_call {A V : Type} `{EqDecision V}
    (members : list A) (value : A -> V) (v : V) : option A :=
  snd <$> list_find (fun m => value m = v) members.

(** class Priority(IntEnum): p0 = 0, p1 = 1, p2 = 2, p3 = 3 *)
Definition Priority_members : list Priority := [p0; p1; p2; p3].

Definition Priority_value (p : Priority) : Z :=
  match p with
  | p0 => 0
  | p1 => 1
  | p2 => 2
  | p3 => 3
  end.

Definition Priority_call : Z -> option Priority :=
  enum_call Priority_members Priority_value.

(** The members of an [IntEnum] compare as their values. *)
Definition Priority_lt (p q : Priority) : bool := Priority_value p <? Priority_value q.

(** class DataSourceType(str, Enum) *)
Definition DataSourceType_members : list DataSourceType := [human; synthetic].

Definition DataSourceType_value (s : DataSourceType) : string :=
  match s with
  | human => "human"
  | synthetic => "synthetic"
  end.

Definition DataSourceType_call : string -> option DataSourceType :=
  enum_call DataSourceType_members DataSourceType_value.

(** class TaskOutputRatingType(str, Enum) *)
Definition TaskOutputRatingType_value (ty : TaskOutputRatingType) : string :=
  match ty with
  | five_star => "five_star"
  | custom => "custom"
  end.

Definition TaskOutputRatingType_call : string -> option TaskOutputRatingType :=
  enum_call TaskOutputRating.members TaskOutputRatingType_value.

(** class TaskDeterminism(str, Enum) *)
Definition TaskDeterminism_members : list TaskDeterminism :=
  [deterministic; semantic_match; flexible].

Definition TaskDeterminism_value (d : TaskDeterminism) : string :=
  match d with
  | deterministic => "deterministic"
  | semantic_match => "semantic_match"
  | flexible => "flexible"
  end.

Definition TaskDeterminism_call : string -> option TaskDeterminism :=
  enum_call TaskDeterminism_members TaskDeterminism_value.

(* ===================================================================== *)
(** * Project management: [kiln_studio/project_management.py] *)

(** The settings store [Config.shared()] of [kiln_ai.utils.config], which
    the module reads and writes. [Config_projects c] is the value of
    [Config.shared().projects] when it is a list, [None] when it is
    anything else; [Config_save_projects l c] is
    [Config.shared().save_setting(projects, l)]. The one thing asked of a
    store is that a saved setting is the one read afterwards. *)
Class ConfigStore := {
  Config : Type;
  Config_projects : Config -> option (list string);
  Config_save_projects : list string -> Config -> Config;
  Config_projects_saved (l : list string) (c : Config) :
    Config_projects (Config_save_projects l c) = Some l
}.

(** [projects.append] changes the list the store gave; the store is
    written by [save_setting] alone, with the list so extended. *)
Definition add_project_to_config `{ConfigStore} (project_path : string) (c : Config)
    : Config :=
  let projects := match Config_projects c with
                  | Some l => l
                  | None => []
                  end in
  if bool_decide (project_path ∈ projects) then c
  else Config_save_projects (projects ++ [project_path]) c.

(** The two [HTTPException]s of [import_project]. *)
Inductive HTTPException :=
| ProjectNotFound        (* 400, "Project not found. Check the path and try again." *)
| ProjectLoadFailed.     (* 500, "Failed to load project. The file be invalid: ..." *)

Definition status_code (e : HTTPException) : nat :=
  match e with
  | ProjectNotFound => 400
  | ProjectLoadFailed => 500
  end.

Section Handlers.

(** What the handlers call outside the module, at the time of the request:
    [path_exists] is [os.path.exists]; [load_from_file p] is the project
    that [Project.load_from_file(p)] returns, [None] when it raises;
    [path_of] is the [path] attribute of a loaded project. *)
Context `{ConfigStore} {LoadedProject : Type}.
Variable path_exists : string -> bool.
Variable load_from_file : string -> option LoadedProject.
Variable path_of : LoadedProject -> option string.

(** [import_project]; the parameter is declared [str], so that the test
    [project_path is None] is that of a value that is never [None]. The
    answer is the loaded project, which the handler dumps. *)
Definition import_project (project_path : string) (c : Config)
    : (HTTPException + LoadedProject) * Config :=
  if negb (path_exists project_path) then (inl ProjectNotFound, c)
  else
    match load_from_file project_path with
    | None => (inl ProjectLoadFailed, c)
    | Some project => (inr project, add_project_to_config project_path c)
    end.

(** [str(project.path)]: the text of the path, and of [None] its name. *)
Definition str_of_path (p : option string) : string :=
  match p with
  | Some s => s
  | None => "None"
  end.

(** The loop of [get_projects] over [project_paths], the list
    [Config.shared().projects]: [projects] collects the dumps with their
    paths, [printed] the paths of the projects reported and skipped. [str]
    returns a string, so that [if path is None] never raises. *)
Fixpoint get_projects_loop (project_paths : list string)
    (projects : list (LoadedProject * string)) (printed : list string)
    : list (LoadedProject * string) * list string :=
  match project_paths with
  | [] => (projects, printed)
  | project_path :: rest =>
      match load_from_file project_path with
      | Some project =>
          let path := str_of_path (path_of project) in
          get_projects_loop rest (projects ++ [(project, path)]) printed
      | None =>
          get_projects_loop rest projects (printed ++ [project_path])
      end
  end.

Definition get_projects (project_paths : list string)
    : list (LoadedProject * string) * list string :=
  get_projects_loop project_paths [] [].

End Handlers.

(** A settings store: a dictionary of settings, of which [projects] may be
    a list of paths, another value, or absent. *)
Module Settings.

Inductive setting :=
| SList (l : list string)
| SText (s : string).

Definition projects (c : gmap string setting) : option (list string) :=
  match c !! "projects" with
  | Some (SList l) => Some l
  | _ => None
  end.

Definition save_projects (l : list string) (c : gmap string setting)
    : gmap string setting :=
  <[ "projects" := SList l ]> c.

Definition store : ConfigStore.
Proof.
  refine {| Config := gmap string setting;
            Config_projects := projects;
            Config_save_projects := save_projects;
            Config_projects_saved := _ |}.
  intros l c. unfold projects, save_projects. rewrite lookup_insert_eq. reflexivity.
Defined.

End Settings.

(* ===================================================================== *)
(** * More vocabulary *)

(** The characters that separate the segments of a path or are reserved in
    the file names of the usual systems: slash, backslash, dot, colon,
    star, question mark, the quotation mark, angle brackets, bar, NUL, line
    feed and carriage return. *)
Definition path_special : list ascii :=
  ["/"; "\"; "."; ":"; "*"; "?"; "034"; "<"; ">"; "|"; "000"; "010"; "013"]%char.

(** The value of the property is a [str]. *)
Definition is_str (v : option DataSource.value) : Prop :=
  exists s, v = Some (DataSource.VStr s).

(** The ids for which the output carries a requirement rating. *)
Definition rated_keys (o : TaskOutput.t) : gset ID_TYPE :=
  match TaskOutput.rating o with
  | Some r => dom (TaskOutputRating.requirement_ratings r)
  | None => ∅
  end.

(** The float has a value without fractional part. *)
Definition integral (x : float) : Prop :=
  exists q, float_value x = Some q /\ no_fraction q.

(** More entities, for the properties below. *)
Module MoreExamples.

Definition human_source (props : gmap string DataSource.value) : DataSource.t :=
  {| DataSource.source_type := human; DataSource.properties := props |}.

Definition synthetic_source (props : gmap string DataSource.value) : DataSource.t :=
  {| DataSource.source_type := synthetic; DataSource.properties := props |}.

(** A project that is loaded from its file, and where. *)
Definition project_file : string := "/home/user/Kiln Projects/Test Project/project.json".

Definition load_test_project (p : string) : option Project.t :=
  if String.eqb p project_file then Some Examples.project else None.

Definition test_project_exists (p : string) : bool := String.eqb p project_file.

(** A store without settings, and one that lists the project file. *)
Definition no_settings : gmap string Settings.setting := ∅.

Definition listed_settings : gmap string Settings.setting :=
  {[ "projects" := Settings.SList [project_file] ]}.

End MoreExamples.

(* ===================================================================== *)
(** * Properties *)

(** ** Results and loops *)

Section Results.

Lemma result_unit_cases (r : result unit) : r = Ok tt \/ fails r.
Proof.
  destruct r as [[]|e]; [left; reflexivity | right; exists e; reflexivity].
Qed.

Lemma fails_not_ok {A : Type} (r : result A) (a : A) : fails r -> r <> Ok a.
Proof. intros [e ->]; discriminate. Qed.

Lemma not_ok_fails (r : result unit) : r <> Ok tt -> fails r.
Proof. destruct (result_unit_cases r); [contradiction | trivial]. Qed.

Lemma raise_if_ok (c : bool) (e : ValueError) : raise_if c e = Ok tt <-> c = false.
Proof. destruct c; simpl; split; intros; (reflexivity || discriminate). Qed.

Lemma seq_ok (r k : result unit) : (r ;; k) = Ok tt <-> r = Ok tt /\ k = Ok tt.
Proof.
  destruct r as [[]|e]; simpl; split.
  - intros Hk; split; [reflexivity | exact Hk].
  - intros [_ Hk]; exact Hk.
  - discriminate.
  - intros [He _]; discriminate.
Qed.

Lemma seq_fails_l (r k : result unit) : fails r -> fails (r ;; k).
Proof. intros [e ->]; exists e; reflexivity. Qed.

Lemma for_each_ok {A : Type} (body : A -> result unit) (l : list A) :
  for_each body l = Ok tt <-> Forall (fun x => body x = Ok tt) l.
Proof.
  induction l as [|x rest IH]; simpl.
  - split; [constructor | reflexivity].
  - rewrite seq_ok, IH, Forall_cons. reflexivity.
Qed.

(** A loop that fails reports the error of one of its elements, the first
    for which the body raises. *)
Lemma for_each_raise {A : Type} (body : A -> result unit) (l : list A) (e : ValueError) :
  for_each body l = Raise e -> exists x, x ∈ l /\ body x = Raise e.
Proof.
  induction l as [|x rest IH]; simpl; [discriminate|].
  destruct (body x) as [[]|e'] eqn:Hx; simpl.
  - intros H. destruct (IH H) as (y & Hy & Hby).
    exists y; split; [right; exact Hy | exact Hby].
  - intros [= ->]. exists x; split; [left | exact Hx].
Qed.

End Results.

(** ** Names *)

Section Names.

Lemma code_inj (a b : ascii) : code a = code b <-> a = b.
Proof.
  split; [|intros ->; reflexivity].
  unfold code; intros H.
  rewrite <- (ascii_N_embedding a), <- (ascii_N_embedding b), H. reflexivity.
Qed.

Lemma name_class_matches (c : ascii) :
  class_matches
    [CRange "A" "Z"; CRange "a" "z"; CRange "0" "9"; CChar " "; CChar "_"; CChar "-"] c
  = true <-> name_char c.
Proof.
  unfold class_matches, name_char, between; cbn [existsb item_matches].
  rewrite !orb_true_iff, !andb_true_iff, !N.leb_le, !N.eqb_eq, !code_inj.
  intuition discriminate.
Qed.

Lemma length_list_ascii (s : string) :
  length (list_ascii_of_string s) = String.length s.
Proof. induction s as [|c s IH]; simpl; [reflexivity | now rewrite IH]. Qed.

Lemma name_regex_match (s : string) :
  regex_match NAME_REGEX s = true <->
  Forall name_char (list_ascii_of_string s) /\ (1 <= String.length s)%nat.
Proof.
  unfold regex_match, NAME_REGEX.
  rewrite <- length_list_ascii.
  destruct (list_ascii_of_string s) as [|c cs] eqn:Hs.
  - simpl. split; [discriminate | intros [_ H]; lia].
  - rewrite forallb_forall, Forall_forall.
    split.
    + intros H; split; [|simpl; lia].
      intros x Hx. apply name_class_matches, H, list_elem_of_In, Hx.
    + intros [H _] x Hx. apply name_class_matches, H, list_elem_of_In, Hx.
Qed.

(** [NAME_FIELD] accepts exactly the filename-safe strings. *)
Lemma name_field_ok (field s : string) :
  validate_str_field field NAME_FIELD s = Ok tt <-> filename_safe s.
Proof.
  unfold validate_str_field, filename_safe.
  cbn [NAME_FIELD min_length max_length pattern below_min above_max pattern_rejects].
  rewrite !seq_ok, !raise_if_ok, negb_false_iff, name_regex_match.
  rewrite !Nat.ltb_ge. intuition lia.
Qed.

End Names.

(** ** Five-star ratings *)

Section FiveStar.

Local Open Scope Q_scope.

Lemma is_integer_spec (x : float) :
  is_integer x = true <-> exists q, float_value x = Some q /\ no_fraction q.
Proof.
  unfold is_integer, no_fraction.
  destruct (float_value x) as [q|].
  - rewrite Qeq_bool_iff. split.
    + intros H. exists q. split; [reflexivity|]. exists (Qfloor q). symmetry; exact H.
    + intros (q' & [= <-] & n & Hn).
      rewrite (Qfloor_comp _ _ Hn), Qfloor_Z. symmetry; exact Hn.
  - split; [discriminate | intros (q & [=] & _)].
Qed.

Lemma float_compare_int_finite (x : float) (q : Q) (n : Z) :
  float_value x = Some q -> float_compare_int x n = Some (q ?= inject_Z n).
Proof.
  destruct x as [s|s| |s m e]; simpl; try discriminate; intros [= <-]; reflexivity.
Qed.

Lemma float_lt_int_finite (x : float) (q : Q) (n : Z) :
  float_value x = Some q -> (float_lt_int x n = false <-> inject_Z n <= q).
Proof.
  intros Hq. unfold float_lt_int. rewrite (float_compare_int_finite _ _ _ Hq).
  rewrite Qle_alt, <- Qgt_alt, Qlt_alt.
  destruct (q ?= inject_Z n); split; intros; congruence.
Qed.

Lemma float_gt_int_finite (x : float) (q : Q) (n : Z) :
  float_value x = Some q -> (float_gt_int x n = false <-> q <= inject_Z n).
Proof.
  intros Hq. unfold float_gt_int. rewrite (float_compare_int_finite _ _ _ Hq).
  rewrite Qle_alt.
  destruct (q ?= inject_Z n); split; intros; congruence.
Qed.

Lemma validate_five_star_ok (x : float) (rating_name : string) :
  TaskOutputRating._validate_five_star x rating_name = Ok tt <-> whole_stars x.
Proof.
  unfold TaskOutputRating._validate_five_star, whole_stars.
  rewrite seq_ok, !raise_if_ok, negb_false_iff, orb_false_iff, is_integer_spec.
  split.
  - intros [(q & Hq & Hn) [Hlt Hgt]]. exists q.
    rewrite (float_lt_int_finite _ _ _ Hq) in Hlt.
    rewrite (float_gt_int_finite _ _ _ Hq) in Hgt. auto.
  - intros (q & Hq & Hn & Hlo & Hhi). split; [exists q; auto|].
    rewrite (float_lt_int_finite _ _ _ Hq), (float_gt_int_finite _ _ _ Hq). auto.
Qed.

(** The five accepted values. *)
Lemma whole_stars_values (x : float) :
  whole_stars x <->
  exists n : Z, (1 <= n <= 5)%Z /\ exists q, float_value x = Some q /\ q == inject_Z n.
Proof.
  unfold whole_stars, no_fraction. split.
  - intros (q & Hq & [n Hn] & Hlo & Hhi). exists n. split.
    + rewrite Hn in Hlo, Hhi.
      change 1 with (inject_Z 1) in Hlo. change 5 with (inject_Z 5) in Hhi.
      rewrite <- Zle_Qle in Hlo, Hhi. lia.
    + exists q; auto.
  - intros (n & [Hlo Hhi] & q & Hq & Hn). exists q. split; [exact Hq|].
    split; [exists n; exact Hn|].
    rewrite Hn. change 1 with (inject_Z 1). change 5 with (inject_Z 5).
    rewrite <- !Zle_Qle. lia.
Qed.

Lemma rating_type_is_member (ty : TaskOutputRatingType) :
  bool_decide (ty ∈ TaskOutputRating.members) = true.
Proof.
  apply bool_decide_eq_true. unfold TaskOutputRating.members.
  destruct ty; [left | right; left].
Qed.

Lemma validate_rating_five_star (r : TaskOutputRating.t) :
  TaskOutputRating.type r = five_star ->
  (TaskOutputRating.validate_rating r = Ok tt <->
   whole_stars (TaskOutputRating.rating r) /\
   map_Forall (fun _ v => whole_stars v) (TaskOutputRating.requirement_ratings r)).
Proof.
  intros Hty. unfold TaskOutputRating.validate_rating.
  rewrite rating_type_is_member, Hty. simpl.
  rewrite seq_ok, validate_five_star_ok, for_each_ok, map_Forall_to_list.
  apply and_iff_compat_l.
  apply Forall_iff. intros [k v]. simpl. apply validate_five_star_ok.
Qed.

Lemma validate_rating_custom (r : TaskOutputRating.t) :
  TaskOutputRating.type r = custom -> TaskOutputRating.validate_rating r = Ok tt.
Proof.
  intros Hty. unfold TaskOutputRating.validate_rating.
  rewrite rating_type_is_member, Hty. reflexivity.
Qed.

End FiveStar.

(** ** Schema conformance *)

Section Conformance.

Context `{JsonLib}.

Lemma check_json_text_ok (text schema : string) (e1 e2 : ValueError) :
  check_json_text text schema e1 e2 = Ok tt <-> conforms text schema.
Proof.
  unfold check_json_text, conforms.
  destruct (json_loads text) as [instance|].
  - destruct (validate_schema instance schema) eqn:Hv.
    + split; [intros _; exists instance; auto | reflexivity].
    + split; [discriminate | intros (i & [= <-] & Hi); congruence].
  - split; [discriminate | intros (i & [=] & _)].
Qed.

(** The errors of the two [except] clauses. *)
Lemma check_json_text_raise (text schema : string) (e1 e2 e : ValueError) :
  check_json_text text schema e1 e2 = Raise e ->
  (e = e1 /\ json_loads text = None) \/
  (e = e2 /\ exists instance, json_loads text = Some instance /\
                              validate_schema instance schema = false).
Proof.
  unfold check_json_text.
  destruct (json_loads text) as [instance|]; [|intros [= <-]; left; auto].
  destruct (validate_schema instance schema) eqn:Hv; [discriminate|].
  intros [= <-]. right. split; [reflexivity | exists instance; auto].
Qed.

Lemma task_for_validation_attached (o : TaskOutput.t) (task : Task.t) :
  TaskOutput.task_for_validation o = Ok (Some task) <-> output_of_task o task.
Proof.
  unfold TaskOutput.task_for_validation, TaskOutput.parent_task_run,
    output_of_task, run_of_task.
  destruct (TaskOutput.parent o) as [|run|].
  - split; [discriminate | intros (r & [=] & _)].
  - destruct (TaskRun.parent run) as [|task'|] eqn:Hp.
    + split; [discriminate | intros (r & [= <-] & Hr); congruence].
    + split.
      * intros [= ->]. exists run; auto.
      * intros (r & [= <-] & Hr). congruence.
    + split; [discriminate | intros (r & [= <-] & Hr); congruence].
  - split; [discriminate | intros (r & [=] & _)].
Qed.

Lemma task_for_validation_detached (o : TaskOutput.t) :
  TaskOutput.task_for_validation o = Ok None <-> detached o.
Proof.
  unfold TaskOutput.task_for_validation, TaskOutput.parent_task_run, detached.
  destruct (TaskOutput.parent o) as [|run|]; [tauto| |tauto].
  destruct (TaskRun.parent run); split; congruence.
Qed.

Lemma validate_input_format_schema (r : TaskRun.t) (task : Task.t) (schema : string) :
  run_of_task r task -> Task.input_json_schema task = Some schema ->
  (TaskRun.validate_input_format r = Ok tt <-> conforms (TaskRun.input r) schema).
Proof.
  unfold run_of_task, TaskRun.validate_input_format. intros -> ->.
  apply check_json_text_ok.
Qed.

Lemma validate_input_format_no_schema (r : TaskRun.t) (task : Task.t) :
  run_of_task r task -> Task.input_json_schema task = None ->
  TaskRun.validate_input_format r = Ok tt.
Proof. unfold run_of_task, TaskRun.validate_input_format. intros -> ->. reflexivity. Qed.

Lemma validate_output_format_schema (o : TaskOutput.t) (task : Task.t) (schema : string) :
  output_of_task o task -> Task.output_json_schema task = Some schema ->
  (TaskOutput.validate_output_format o = Ok tt <-> conforms (TaskOutput.output o) schema).
Proof.
  intros Ho Hs. apply task_for_validation_attached in Ho.
  unfold TaskOutput.validate_output_format. rewrite Ho. simpl. rewrite Hs.
  apply check_json_text_ok.
Qed.

Lemma validate_output_format_no_schema (o : TaskOutput.t) (task : Task.t) :
  output_of_task o task -> Task.output_json_schema task = None ->
  TaskOutput.validate_output_format o = Ok tt.
Proof.
  intros Ho Hs. apply task_for_validation_attached in Ho.
  unfold TaskOutput.validate_output_format. rewrite Ho. simpl. rewrite Hs. reflexivity.
Qed.

Lemma validate_output_format_detached (o : TaskOutput.t) :
  detached o -> TaskOutput.validate_output_format o = Ok tt.
Proof.
  intros Ho. apply task_for_validation_detached in Ho.
  unfold TaskOutput.validate_output_format. rewrite Ho. reflexivity.
Qed.

End Conformance.

(** ** Requirement rating keys *)

Section RatingKeys.


Lemma keys_of_map_to_list (m : gmap ID_TYPE float) (k : ID_TYPE) :
  k ∈ (map_to_list m).*1 <-> is_Some (m !! k).
Proof.
  rewrite list_elem_of_fmap. split.
  - intros ([k' v] & -> & Hin). apply elem_of_map_to_list in Hin. eauto.
  - intros [v Hv]. exists (k, v). split; [reflexivity|].
    apply elem_of_map_to_list. exact Hv.
Qed.


Lemma validate_requirement_rating_keys_detached (o : TaskOutput.t) :
  detached o -> TaskOutput.validate_requirement_rating_keys o = Ok tt.
Proof.
  intros Ho. apply task_for_validation_detached in Ho.
  unfold TaskOutput.validate_requirement_rating_keys.
  destruct (TaskOutput.rating o) as [r|]; [|reflexivity].
  case_bool_decide; [reflexivity|]. rewrite Ho. reflexivity.
Qed.



End RatingKeys.

(** ** Source properties *)

Section SourceProperties.

Lemma required_keys_spec (source : DataSourceType) :
  TaskOutput.required_keys source = Ok (keys_required_for source).
Proof. destruct source; reflexivity. Qed.

(** The loop returns the absent keys when no present key is empty, and
    raises for the first present key that is. *)
Lemma collect_missing_keys_ok (source : DataSourceType) (props : gmap string string)
    (keys acc l : list string) :
  TaskOutput.collect_missing_keys source props keys acc = Ok l <->
  Forall (fun k => props !! k <> Some EmptyString) keys /\
  l = (acc ++ filter (fun k => props !! k = None) keys)%list.
Proof.
  revert acc. induction keys as [|k rest IH]; intros acc; simpl.
  - rewrite app_nil_r. split.
    + intros [= ->]. split; [constructor | reflexivity].
    + intros [_ ->]. reflexivity.
  - rewrite Forall_cons. destruct (props !! k) as [v|] eqn:Hk.
    + rewrite filter_cons_False by (rewrite Hk; discriminate).
      destruct (decide (v = EmptyString)) as [->|Hv].
      * split; [discriminate | intros [[Hne _] _]; congruence].
      * rewrite IH. split.
        -- intros [H1 H2]. split; [split; [congruence | exact H1] | exact H2].
        -- intros [[_ H1] H2]. split; assumption.
    + rewrite filter_cons_True by exact Hk.
      rewrite IH, <- app_assoc. simpl. split.
      * intros [H1 H2]. split; [split; [discriminate | exact H1] | exact H2].
      * intros [[_ H1] H2]. split; assumption.
Qed.

Lemma collect_missing_keys_raise (source : DataSourceType) (props : gmap string string)
    (keys acc : list string) (e : ValueError) :
  TaskOutput.collect_missing_keys source props keys acc = Raise e ->
  exists k, k ∈ keys /\ props !! k = Some EmptyString /\ e = SourcePropertyEmpty k source.
Proof.
  revert acc. induction keys as [|k rest IH]; intros acc; simpl; [discriminate|].
  destruct (props !! k) as [v|] eqn:Hk.
  - destruct (decide (v = EmptyString)) as [->|Hv].
    + intros [= <-]. exists k. split; [left | auto].
    + intros He. destruct (IH _ He) as (k' & Hin & Hk' & ->).
      exists k'. split; [right; exact Hin | auto].
  - intros He. destruct (IH _ He) as (k' & Hin & Hk' & ->).
    exists k'. split; [right; exact Hin | auto].
Qed.

Lemma validate_source_properties_ok (o : TaskOutput.t) :
  TaskOutput.validate_source_properties o = Ok tt <->
  Forall (present_non_empty (TaskOutput.source_properties o))
         (keys_required_for (TaskOutput.source o)).
Proof.
  unfold TaskOutput.validate_source_properties.
  rewrite required_keys_spec. simpl.
  set (props := TaskOutput.source_properties o).
  set (keys := keys_required_for (TaskOutput.source o)).
  destruct (TaskOutput.collect_missing_keys _ props keys []) as [l|e] eqn:Hc; simpl.
  - apply collect_missing_keys_ok in Hc as [Hne ->]. simpl.
    rewrite raise_if_ok, Nat.ltb_ge.
    rewrite !Forall_forall in *. split.
    + intros Hlen k Hk. unfold present_non_empty.
      destruct (props !! k) as [v|] eqn:Hv.
      * exists v. split; [reflexivity|]. intros ->. exact (Hne k Hk Hv).
      * assert (Hin : k ∈ filter (fun k => props !! k = None) keys)
          by (apply list_elem_of_filter; auto).
        destruct (filter _ keys); [inversion Hin | simpl in Hlen; lia].
    + intros Hall.
      destruct (filter (fun k => props !! k = None) keys) as [|k l] eqn:Hf;
        [simpl; lia|].
      assert (Hin : k ∈ filter (fun k => props !! k = None) keys)
        by (rewrite Hf; left).
      apply list_elem_of_filter in Hin as [Hnone Hk].
      destruct (Hall k Hk) as (v & Hv & _). congruence.
  - split; [discriminate|].
    intros Hall. apply collect_missing_keys_raise in Hc as (k & Hk & Hv & _).
    rewrite Forall_forall in Hall. destruct (Hall k Hk) as (v & Hv' & Hne).
    congruence.
Qed.

(** The validator reads the source and its properties only. *)
Lemma validate_source_properties_ext (o o' : TaskOutput.t) :
  TaskOutput.source o = TaskOutput.source o' ->
  TaskOutput.source_properties o = TaskOutput.source_properties o' ->
  TaskOutput.validate_source_properties o = TaskOutput.validate_source_properties o'.
Proof.
  unfold TaskOutput.validate_source_properties. intros -> ->. reflexivity.
Qed.

Lemma validate_source_properties_human_empty (o : TaskOutput.t) :
  TaskOutput.source o = human -> TaskOutput.source_properties o = ∅ ->
  TaskOutput.validate_source_properties o =
  Raise (SourcePropertiesMissing ["creator"] human).
Proof.
  unfold TaskOutput.validate_source_properties. intros -> ->. simpl.
  rewrite lookup_empty. reflexivity.
Qed.

Lemma validate_source_properties_human_blank (o : TaskOutput.t) :
  TaskOutput.source o = human ->
  TaskOutput.source_properties o = {[ "creator" := EmptyString ]} ->
  TaskOutput.validate_source_properties o =
  Raise (SourcePropertyEmpty "creator" human).
Proof.
  unfold TaskOutput.validate_source_properties. intros -> ->. simpl.
  rewrite lookup_singleton_eq. reflexivity.
Qed.

End SourceProperties.

(** ** The whole validation of a TaskOutput *)

Section WholeValidation.

Context `{JsonLib}.

Lemma validate_task_output_ok (o : TaskOutput.t) :
  TaskOutput.validate o = Ok tt <->
  TaskOutput.validate_output_format o = Ok tt /\
  TaskOutput.validate_requirement_rating_keys o = Ok tt /\
  TaskOutput.validate_source_properties o = Ok tt.
Proof. unfold TaskOutput.validate. rewrite !seq_ok. reflexivity. Qed.

(** For a detached output only the source properties are checked. *)
Lemma validate_task_output_detached (o : TaskOutput.t) :
  detached o -> TaskOutput.validate o = TaskOutput.validate_source_properties o.
Proof.
  intros Ho. unfold TaskOutput.validate.
  rewrite (validate_output_format_detached o Ho),
    (validate_requirement_rating_keys_detached o Ho). reflexivity.
Qed.

End WholeValidation.

(** ** The store: a write leaves the ancestors of the written file alone *)

Section StoreFrame.

Import Store.

#[local] Open Scope list_scope.








Lemma base_filename_persisted (m : Model) :
  base_filename (persisted_model m) = base_filename m.
Proof. destruct m; reflexivity. Qed.


Lemma persisted_idempotent (e : Entity) : persisted (persisted e) = persisted e.
Proof. destruct e as [i p ca cb m]. unfold persisted. simpl. destruct m; reflexivity. Qed.


Context `{JsonLib}.


(** A refused save returns the error of the validators; no disk is
    returned, the one at hand is as it was. *)
Lemma save_refused (disk : Disk) (dir : Path) (fresh : ID_TYPE) (now : N)
    (e : Entity) (err : ValueError) :
  save disk dir fresh now e = Raise err <->
  validate (attach disk dir
              (model (assign fresh now (dir ++ [base_filename (model e)]) e)))
  = Raise err.
Proof.
  unfold save, save_to_file.
  destruct (validate _) as [[]|err']; simpl; split; congruence.
Qed.

End StoreFrame.

(* ===================================================================== *)
(** * The claims of the specification *)

Section Claims.

Context `{JsonLib}.

(** C7. A Project, a Task or a TaskRequirement validates only if its name
    consists of characters of [[A-Za-z0-9 _-]] and has between 1 and 120 of
    them; with any other name validation fails. For a Project, whose other
    field is unconstrained, the condition is also sufficient. *)
Theorem C7_names_are_filename_safe :
  (forall p : Project.t,
      (Project.validate p = Ok tt <-> filename_safe (Project.name p)) /\
      (~ filename_safe (Project.name p) -> fails (Project.validate p))) /\
  (forall t : Task.t,
      (Task.validate t = Ok tt -> filename_safe (Task.name t)) /\
      (~ filename_safe (Task.name t) -> fails (Task.validate t))) /\
  (forall r : TaskRequirement.t,
      (TaskRequirement.validate r = Ok tt -> filename_safe (TaskRequirement.name r)) /\
      (~ filename_safe (TaskRequirement.name r) -> fails (TaskRequirement.validate r))).
Proof.
  split; [|split].
  - intros p. unfold Project.validate. split; [apply name_field_ok|].
    intros Hn. apply not_ok_fails. rewrite name_field_ok. exact Hn.
  - intros t.
    assert (Hok : Task.validate t = Ok tt -> filename_safe (Task.name t)).
    { unfold Task.validate. rewrite seq_ok, name_field_ok. tauto. }
    split; [exact Hok|]. intros Hn. apply not_ok_fails. tauto.
  - intros r.
    assert (Hok : TaskRequirement.validate r = Ok tt ->
                  filename_safe (TaskRequirement.name r)).
    { unfold TaskRequirement.validate. rewrite seq_ok, name_field_ok. tauto. }
    split; [exact Hok|]. intros Hn. apply not_ok_fails. tauto.
Qed.

(** C2. A five-star TaskOutputRating validates if and only if its overall
    rating is a float without fractional part between 1 and 5 and every
    value of [requirement_ratings] is one too; when one of them is not,
    validation fails. *)
Theorem C2_five_star_rating (r : TaskOutputRating.t) :
  TaskOutputRating.type r = five_star ->
  (TaskOutputRating.validate r = Ok tt <->
   whole_stars (TaskOutputRating.rating r) /\
   map_Forall (fun _ v => whole_stars v) (TaskOutputRating.requirement_ratings r)) /\
  (~ (whole_stars (TaskOutputRating.rating r) /\
      map_Forall (fun _ v => whole_stars v) (TaskOutputRating.requirement_ratings r)) ->
   fails (TaskOutputRating.validate r)).
Proof.
  intros Hty. pose proof (validate_rating_five_star r Hty) as Hiff.
  unfold TaskOutputRating.validate. split; [exact Hiff|].
  intros Hn. apply not_ok_fails. rewrite Hiff. exact Hn.
Qed.

(** C9. A TaskOutputRating of type custom validates whatever its rating and
    the values of its [requirement_ratings] are: integrality and range are
    checked for five_star only. *)
Theorem C9_custom_rating_unconstrained (r : TaskOutputRating.t) :
  TaskOutputRating.type r = custom -> TaskOutputRating.validate r = Ok tt.
Proof. exact (validate_rating_custom r). Qed.

(** C1, amended. A TaskRun whose parent Task declares an input schema
    validates if and only if its input parses as JSON and validates against
    that schema. For a TaskOutput whose parent chain resolves to a Task that
    declares an output schema, the schema-conformance validator succeeds if
    and only if the output parses as JSON and validates against the schema,
    and the output validates as a whole if and only if, besides, its
    requirement-rating keys and its source properties are accepted. When the
    schema is absent, the conformance validator accepts every text. *)
Theorem C1_schema_conformance :
  (forall (r : TaskRun.t) (task : Task.t) (schema : string),
      run_of_task r task -> Task.input_json_schema task = Some schema ->
      (TaskRun.validate r = Ok tt <-> conforms (TaskRun.input r) schema)) /\
  (forall (o : TaskOutput.t) (task : Task.t) (schema : string),
      output_of_task o task -> Task.output_json_schema task = Some schema ->
      (TaskOutput.validate_output_format o = Ok tt <->
       conforms (TaskOutput.output o) schema) /\
      (TaskOutput.validate o = Ok tt <->
       conforms (TaskOutput.output o) schema /\
       TaskOutput.validate_requirement_rating_keys o = Ok tt /\
       TaskOutput.validate_source_properties o = Ok tt)) /\
  (forall (r : TaskRun.t) (task : Task.t),
      run_of_task r task -> Task.input_json_schema task = None ->
      TaskRun.validate r = Ok tt) /\
  (forall (o : TaskOutput.t) (task : Task.t),
      output_of_task o task -> Task.output_json_schema task = None ->
      TaskOutput.validate_output_format o = Ok tt).
Proof.
  split; [|split; [|split]].
  - intros r task schema Hr Hs. unfold TaskRun.validate.
    exact (validate_input_format_schema r task schema Hr Hs).
  - intros o task schema Ho Hs.
    pose proof (validate_output_format_schema o task schema Ho Hs) as Hfmt.
    split; [exact Hfmt|]. rewrite validate_task_output_ok, Hfmt. reflexivity.
  - intros r task Hr Hs. unfold TaskRun.validate.
    exact (validate_input_format_no_schema r task Hr Hs).
  - intros o task Ho Hs. exact (validate_output_format_no_schema o task Ho Hs).
Qed.


(** C4, amended. A TaskOutput validates only if every key required for its
    source (creator for human; adapter_name, model_name, model_provider and
    prompt_builder_name for synthetic) is present with a non-empty value.
    That is all its source-properties validator asks: it forbids no key.
    The validation of a TaskRun does not depend on its source or its
    source properties. *)
Theorem C4_source_properties :
  (forall o : TaskOutput.t,
      TaskOutput.validate o = Ok tt ->
      Forall (present_non_empty (TaskOutput.source_properties o))
             (keys_required_for (TaskOutput.source o))) /\
  (forall o : TaskOutput.t,
      TaskOutput.validate_source_properties o = Ok tt <->
      Forall (present_non_empty (TaskOutput.source_properties o))
             (keys_required_for (TaskOutput.source o))) /\
  (forall (r : TaskRun.t) (source : DataSourceType) (props : gmap string string),
      TaskRun.validate (TaskRun.set_source r source props) = TaskRun.validate r).
Proof.
  split; [|split].
  - intros o. rewrite validate_task_output_ok, validate_source_properties_ok. tauto.
  - intros o. apply validate_source_properties_ok.
  - intros r source props. reflexivity.
Qed.

(** C5. A human TaskOutput with empty source properties fails validation,
    its source-properties validator naming the missing key creator; with
    creator set to the empty string it fails for the empty value of a
    required key; both are constraint errors, and the errors of the whole
    validation when the output is detached. A synthetic TaskOutput whose
    adapter_name, model_name, model_provider and prompt_builder_name are all
    present and non-empty passes the source-properties validator, and, when
    detached, validation as a whole. *)
Theorem C5_source_properties_examples :
  (forall o : TaskOutput.t,
      TaskOutput.source o = human -> TaskOutput.source_properties o = ∅ ->
      let e := SourcePropertiesMissing ["creator"] human in
      TaskOutput.validate_source_properties o = Raise e /\
      error_kind e = Some ConstraintError /\
      fails (TaskOutput.validate o) /\
      (detached o -> TaskOutput.validate o = Raise e)) /\
  (forall o : TaskOutput.t,
      TaskOutput.source o = human ->
      TaskOutput.source_properties o = {[ "creator" := EmptyString ]} ->
      let e := SourcePropertyEmpty "creator" human in
      TaskOutput.validate_source_properties o = Raise e /\
      error_kind e = Some ConstraintError /\
      fails (TaskOutput.validate o) /\
      (detached o -> TaskOutput.validate o = Raise e)) /\
  (forall o : TaskOutput.t,
      TaskOutput.source o = synthetic ->
      Forall (present_non_empty (TaskOutput.source_properties o))
             ["adapter_name"; "model_name"; "model_provider"; "prompt_builder_name"] ->
      TaskOutput.validate_source_properties o = Ok tt /\
      (detached o -> TaskOutput.validate o = Ok tt)).
Proof.
  assert (Hfail : forall o e, TaskOutput.validate_source_properties o = Raise e ->
                              fails (TaskOutput.validate o)).
  { intros o e He. apply not_ok_fails. rewrite validate_task_output_ok, He.
    intros (_ & _ & [=]). }
  split; [|split].
  - intros o Hs Hp e.
    pose proof (validate_source_properties_human_empty o Hs Hp) as He.
    split; [exact He|]. split; [reflexivity|]. split; [exact (Hfail o e He)|].
    intros Hd. rewrite (validate_task_output_detached o Hd). exact He.
  - intros o Hs Hp e.
    pose proof (validate_source_properties_human_blank o Hs Hp) as He.
    split; [exact He|]. split; [reflexivity|]. split; [exact (Hfail o e He)|].
    intros Hd. rewrite (validate_task_output_detached o Hd). exact He.
  - intros o Hs Hall.
    assert (Hok : TaskOutput.validate_source_properties o = Ok tt)
      by (apply validate_source_properties_ok; rewrite Hs; exact Hall).
    split; [exact Hok|].
    intros Hd. rewrite (validate_task_output_detached o Hd). exact Hok.
Qed.

(** C6. For a TaskOutput without resolvable parent chain the conformance
    and the requirement-rating-key validators accept (they are deferred),
    whatever the output text: validation is then that of the source
    properties alone. Once the output is attached under a TaskRun whose
    parent Task declares an output schema that the output violates,
    validation fails and saving is refused. *)
Theorem C6_detached_validation_deferred :
  (forall o : TaskOutput.t,
      detached o ->
      TaskOutput.validate_output_format o = Ok tt /\
      TaskOutput.validate_requirement_rating_keys o = Ok tt /\
      TaskOutput.validate o = TaskOutput.validate_source_properties o) /\
  (forall (o : TaskOutput.t) (run : TaskRun.t) (task : Task.t) (schema : string),
      run_of_task run task -> Task.output_json_schema task = Some schema ->
      ~ conforms (TaskOutput.output o) schema ->
      let attached := TaskOutput.set_parent o (Parent run) in
      fails (TaskOutput.validate attached) /\
      (forall (Disk : Type) (write : Disk -> Disk) (disk : Disk),
          fails (save_to_file (TaskOutput.validate attached) write disk))).
Proof.
  split.
  - intros o Hd. split; [exact (validate_output_format_detached o Hd)|].
    split; [exact (validate_requirement_rating_keys_detached o Hd)|].
    exact (validate_task_output_detached o Hd).
  - intros o run task schema Hrun Hs Hno attached.
    assert (Ho : output_of_task attached task) by (exists run; split; [reflexivity | exact Hrun]).
    assert (Hfail : fails (TaskOutput.validate attached)).
    { apply not_ok_fails. rewrite validate_task_output_ok.
      rewrite (validate_output_format_schema attached task schema Ho Hs).
      intros [Hc _]. exact (Hno Hc). }
    split; [exact Hfail|].
    intros Disk write disk. destruct Hfail as [e He].
    exists e. unfold save_to_file. rewrite He. reflexivity.
Qed.

(** C10. The source-properties validator is not deferred: for a detached
    TaskOutput the two cross-entity validators accept and validation is that
    of the source properties, so that a human output built with no parent
    and empty source properties is rejected at once for the missing creator. *)
Theorem C10_source_properties_not_deferred (o : TaskOutput.t) :
  detached o ->
  TaskOutput.validate_output_format o = Ok tt /\
  TaskOutput.validate_requirement_rating_keys o = Ok tt /\
  TaskOutput.validate o = TaskOutput.validate_source_properties o /\
  (TaskOutput.source o = human -> TaskOutput.source_properties o = ∅ ->
   TaskOutput.validate o = Raise (SourcePropertiesMissing ["creator"] human)).
Proof.
  intros Hd.
  pose proof (validate_task_output_detached o Hd) as Hv.
  split; [exact (validate_output_format_detached o Hd)|].
  split; [exact (validate_requirement_rating_keys_detached o Hd)|].
  split; [exact Hv|].
  intros Hs Hp. rewrite Hv. exact (validate_source_properties_human_empty o Hs Hp).
Qed.


End Claims.

(* ===================================================================== *)
(** * The claims on the entities of the test suite *)

Section OnExamples.

Import Examples.

#[local] Existing Instance MiniJson.lib.

(** The run whose input is the well-formed person, under the structured
    task, validates and its input conforms. *)
Lemma C1_witness :
  TaskRun.validate (run john_30 (Parent structured_task)) = Ok tt <->
  conforms john_30 person_schema.
Proof.
  apply (proj1 (@C1_schema_conformance MiniJson.lib)
           (run john_30 (Parent structured_task)) structured_task person_schema);
    reflexivity.
Defined.

(** An output that conforms to the schema of its task and yet does not
    validate: its creator is missing. *)
Lemma C1_counterexample :
  let o := human_output john_30 ∅ None
             (Parent (run "Test input" (Parent structured_task))) in
  output_of_task o structured_task /\
  Task.output_json_schema structured_task = Some person_schema /\
  conforms (TaskOutput.output o) person_schema /\
  TaskOutput.validate o = Raise (SourcePropertiesMissing ["creator"] human) /\
  ~ (TaskOutput.validate o = Ok tt <-> conforms (TaskOutput.output o) person_schema).
Proof.
  intros o.
  assert (Hc : conforms (TaskOutput.output o) person_schema).
  { eexists. split; vm_compute; reflexivity. }
  assert (Hv : TaskOutput.validate o = Raise (SourcePropertiesMissing ["creator"] human))
    by (vm_compute; reflexivity).
  split; [eexists; split; reflexivity|].
  split; [reflexivity|]. split; [exact Hc|]. split; [exact Hv|].
  intros [_ Hiff]. specialize (Hiff Hc). rewrite Hv in Hiff. discriminate.
Qed.

Lemma C2_witness :
  TaskOutputRating.validate good_rating = Ok tt <->
  whole_stars (TaskOutputRating.rating good_rating) /\
  map_Forall (fun _ v => whole_stars v)
             (TaskOutputRating.requirement_ratings good_rating).
Proof. exact (proj1 (C2_five_star_rating good_rating eq_refl)). Defined.

Lemma C9_witness :
  TaskOutputRating.validate
    (stars custom (float_of_dyadic (-7) (-1)) {[ "req1" := S754_nan ]}) = Ok tt.
Proof. apply C9_custom_rating_unconstrained. reflexivity. Defined.

Lemma C7_witness : filename_safe "Test Task".
Proof.
  apply (proj1 (proj1 (proj2 (@C7_names_are_filename_safe MiniJson.lib))
                  structured_task)).
  vm_compute. reflexivity.
Defined.



(** A run without creator validates, and a human output that carries
    model_name, a key the table of DataSource does not allow for human,
    validates as well. *)
Lemma C4_counterexample :
  (let r := bare_run "Test input" (Parent plain_task) in
   TaskRun.validate r = Ok tt /\
   TaskRun.source r = human /\
   TaskRun.source_properties r !! "creator" = None /\
   ~ Forall (present_non_empty (TaskRun.source_properties r))
            (keys_required_for (TaskRun.source r))) /\
  (let o := human_output "Test output"
              {[ "creator" := "john_doe"; "model_name" := "GPT-4" ]} None NoParent in
   TaskOutput.validate o = Ok tt /\
   not_allowed_key (TaskOutput.source o) "model_name" /\
   is_Some (TaskOutput.source_properties o !! "model_name")).
Proof.
  split.
  - intros r. split; [reflexivity|]. split; [reflexivity|]. split; [reflexivity|].
    intros Hall. apply Forall_cons in Hall as [(v & Hv & _) _].
    vm_compute in Hv. discriminate.
  - intros o. split; [vm_compute; reflexivity|]. split.
    + exists (DataSource.Build_DataSourceProperty "model_name" "str" [synthetic] [human]).
      split; [right; left | split; [reflexivity | left]].
    + eexists. vm_compute. reflexivity.
Qed.

Lemma C4_witness :
  Forall (present_non_empty by_john_doe) (keys_required_for human).
Proof.
  apply (proj1 (@C4_source_properties MiniJson.lib)
           (human_output john_30 by_john_doe None NoParent)).
  vm_compute. reflexivity.
Defined.

Lemma C5_witness :
  TaskOutput.validate (human_output "Test output" ∅ None NoParent)
  = Raise (SourcePropertiesMissing ["creator"] human) /\
  TaskOutput.validate
    (human_output "Test output" {[ "creator" := EmptyString ]} None NoParent)
  = Raise (SourcePropertyEmpty "creator" human) /\
  TaskOutput.validate (synthetic_output "Test output" NoParent) = Ok tt.
Proof.
  pose proof (@C5_source_properties_examples MiniJson.lib) as (Hmissing & Hblank & Hsyn).
  split; [|split].
  - destruct (Hmissing (human_output "Test output" ∅ None NoParent) eq_refl eq_refl)
      as (_ & _ & _ & Hd).
    exact (Hd I).
  - destruct (Hblank (human_output "Test output" {[ "creator" := EmptyString ]}
                        None NoParent) eq_refl eq_refl)
      as (_ & _ & _ & Hd).
    exact (Hd I).
  - refine (proj2 (Hsyn (synthetic_output "Test output" NoParent) eq_refl _) I).
    repeat (apply Forall_cons; split;
            [eexists; split; [vm_compute; reflexivity | discriminate]|]).
    constructor.
Defined.

(** The output with the age spelled out: accepted while detached, refused
    once under the run of the structured task. *)
Lemma C6_witness :
  let o := human_output john_thirty by_john_doe None NoParent in
  let run := run "Test input" (Parent structured_task) in
  TaskOutput.validate o = TaskOutput.validate_source_properties o /\
  fails (TaskOutput.validate (TaskOutput.set_parent o (Parent run))) /\
  fails (save_to_file (TaskOutput.validate (TaskOutput.set_parent o (Parent run)))
           (fun n : nat => S n) 0%nat).
Proof.
  intros o run.
  pose proof (@C6_detached_validation_deferred MiniJson.lib) as [Hdet Hatt].
  split; [apply (Hdet o); exact I|].
  assert (Hno : ~ conforms (TaskOutput.output o) person_schema).
  { intros (i & Hi & Hv). vm_compute in Hi. injection Hi as <-.
    vm_compute in Hv. discriminate. }
  destruct (Hatt o run structured_task person_schema eq_refl eq_refl Hno) as [Hf Hs].
  split; [exact Hf | exact (Hs nat S 0%nat)].
Defined.

Lemma C10_witness :
  TaskOutput.validate (human_output "Test output" ∅ None NoParent)
  = Raise (SourcePropertiesMissing ["creator"] human).
Proof.
  apply (@C10_source_properties_not_deferred MiniJson.lib
           (human_output "Test output" ∅ None NoParent) I); reflexivity.
Defined.


End OnExamples.

(* ===================================================================== *)
(** * Further properties of the validators *)

(** ** The errors of a five-star rating *)

Section FiveStarErrors.

Local Open Scope Q_scope.

Lemma float_lt_int_true (x : float) (q : Q) (n : Z) :
  float_value x = Some q -> (float_lt_int x n = true <-> q < inject_Z n).
Proof.
  intros Hq. pose proof (float_lt_int_finite x q n Hq) as Hle.
  destruct (float_lt_int x n); split; intros Hx; try reflexivity; try discriminate.
  - apply Qnot_le_lt. intros Hc. apply Hle in Hc. discriminate.
  - exfalso. apply (Qlt_not_le _ _ Hx). apply Hle. reflexivity.
Qed.

Lemma float_gt_int_true (x : float) (q : Q) (n : Z) :
  float_value x = Some q -> (float_gt_int x n = true <-> inject_Z n < q).
Proof.
  intros Hq. pose proof (float_gt_int_finite x q n Hq) as Hle.
  destruct (float_gt_int x n); split; intros Hx; try reflexivity; try discriminate.
  - apply Qnot_le_lt. intros Hc. apply Hle in Hc. discriminate.
  - exfalso. apply (Qlt_not_le _ _ Hx). apply Hle. reflexivity.
Qed.

(** A rating that is refused is no whole number of stars, and the error is
    one of the two of [_validate_five_star], under the name given. *)
Lemma validate_five_star_raise (x : float) (rating_name : string) (e : ValueError) :
  TaskOutputRating._validate_five_star x rating_name = Raise e ->
  ~ whole_stars x /\
  (e = FiveStarNotInteger rating_name \/ e = FiveStarOutOfRange rating_name).
Proof.
  intros He. split.
  - intros Hw. apply (validate_five_star_ok x rating_name) in Hw. congruence.
  - unfold TaskOutputRating._validate_five_star in He.
    destruct (is_integer x); simpl in He.
    + destruct (float_lt_int x 1 || float_gt_int x 5); simpl in He;
        [right; congruence | discriminate].
    + left; congruence.
Qed.

(** X1. [_validate_five_star] reports a value that is not integral (a
    fraction, an infinity, a NaN) as not an integer, whatever its size, and
    an integral value below 1 or above 5 as out of range; it raises nothing
    else. *)
Theorem five_star_error_cases (x : float) (rating_name : string) :
  (TaskOutputRating._validate_five_star x rating_name
   = Raise (FiveStarNotInteger rating_name) <-> ~ integral x) /\
  (TaskOutputRating._validate_five_star x rating_name
   = Raise (FiveStarOutOfRange rating_name) <->
   exists q, float_value x = Some q /\ no_fraction q /\ (q < 1 \/ 5 < q)) /\
  (forall e, TaskOutputRating._validate_five_star x rating_name = Raise e ->
             e = FiveStarNotInteger rating_name \/ e = FiveStarOutOfRange rating_name) /\
  (float_value x = None ->
   TaskOutputRating._validate_five_star x rating_name
   = Raise (FiveStarNotInteger rating_name)).
Proof.
  assert (Hnot : TaskOutputRating._validate_five_star x rating_name
                 = Raise (FiveStarNotInteger rating_name) <-> ~ integral x).
  { unfold TaskOutputRating._validate_five_star, integral.
    pose proof (is_integer_spec x) as Hi.
    destruct (is_integer x); simpl.
    - split.
      + destruct (float_lt_int x 1 || float_gt_int x 5); simpl; discriminate.
      + intros Hn. exfalso. apply Hn, Hi. reflexivity.
    - split; [|reflexivity]. intros _ Hq. apply Hi in Hq. discriminate. }
  split; [exact Hnot|]. split; [|split].
  - unfold TaskOutputRating._validate_five_star.
    pose proof (is_integer_spec x) as Hi.
    destruct (is_integer x); simpl.
    + destruct (proj1 Hi eq_refl) as (q & Hq & Hn).
      pose proof (float_lt_int_true x q 1 Hq) as Hlt.
      pose proof (float_gt_int_true x q 5 Hq) as Hgt.
      change (inject_Z 1) with 1 in Hlt. change (inject_Z 5) with 5 in Hgt.
      destruct (float_lt_int x 1) eqn:Hl; simpl.
      * split; [|reflexivity]. intros _. exists q.
        split; [exact Hq|]. split; [exact Hn|]. left. apply Hlt. reflexivity.
      * destruct (float_gt_int x 5) eqn:Hg; simpl.
        -- split; [|reflexivity]. intros _. exists q.
           split; [exact Hq|]. split; [exact Hn|]. right. apply Hgt. reflexivity.
        -- split; [discriminate|].
           intros (q' & Hq' & _ & Hout). rewrite Hq in Hq'. injection Hq' as <-.
           destruct Hout as [Ho|Ho]; [apply Hlt in Ho | apply Hgt in Ho]; discriminate.
    + split; [discriminate|].
      intros (q & Hq & Hn & _).
      assert (Ht : false = true) by (apply Hi; exists q; auto). discriminate.
  - intros e He. exact (proj2 (validate_five_star_raise x rating_name e He)).
  - intros Hv. apply Hnot. intros (q & Hq & _). congruence.
Qed.


End FiveStarErrors.

(** ** The parent chain and the conformance validators *)

Section ParentChain.

Context `{JsonLib}.

(** The error of the two [except] clauses, exactly. *)
Lemma check_json_text_raise_iff (text schema : string) (e1 e2 e : ValueError) :
  e1 <> e2 ->
  (check_json_text text schema e1 e2 = Raise e <->
   (json_loads text = None /\ e = e1) \/
   (exists instance, json_loads text = Some instance /\
                     validate_schema instance schema = false /\ e = e2)).
Proof.
  intros Hne. unfold check_json_text.
  destruct (json_loads text) as [instance|].
  - destruct (validate_schema instance schema) eqn:Hv.
    + split; [discriminate|].
      intros [[[=] _]|(i & [= <-] & Hi & _)]. congruence.
    + split.
      * intros [= <-]. right. exists instance. auto.
      * intros [[[=] _]|(i & _ & _ & ->)]. reflexivity.
  - split.
    + intros [= <-]. left. auto.
    + intros [[_ ->]|(i & [=] & _)]. reflexivity.
Qed.

(** X3. [task_for_validation] never raises the error of a parent that is
    no TaskRun: [parent_task_run] has already turned such a parent into
    none, and the function answers none for it, as it does for an output
    without parent. The one error it raises is that of a TaskRun whose own
    parent is no Task. *)
Theorem task_for_validation_errors (o : TaskOutput.t) :
  TaskOutput.parent_task_run o <> OtherParent /\
  TaskOutput.task_for_validation o <> Raise ParentNotTaskRun /\
  (forall e, TaskOutput.task_for_validation o = Raise e <->
             e = ParentNotTask /\
             exists run, TaskOutput.parent o = Parent run /\
                         TaskRun.parent run = OtherParent) /\
  (TaskOutput.parent o = OtherParent ->
   TaskOutput.task_for_validation o = Ok None).
Proof.
  unfold TaskOutput.task_for_validation, TaskOutput.parent_task_run.
  split; [destruct (TaskOutput.parent o); discriminate|].
  split; [destruct (TaskOutput.parent o) as [|run|];
          [discriminate | destruct (TaskRun.parent run); discriminate | discriminate]|].
  split.
  - intros e. destruct (TaskOutput.parent o) as [|run|].
    + split; [discriminate | intros (_ & run & [=] & _)].
    + destruct (TaskRun.parent run) as [|task|] eqn:Hp.
      * split; [discriminate | intros (_ & run' & [= <-] & Hr); congruence].
      * split; [discriminate | intros (_ & run' & [= <-] & Hr); congruence].
      * split.
        -- intros [= <-]. split; [reflexivity | exists run; auto].
        -- intros (-> & _). reflexivity.
    + split; [discriminate | intros (_ & run & [=] & _)].
  - intros Hp. rewrite Hp. reflexivity.
Qed.

(** X4. The validation of a TaskRun, case by case: without parent it
    accepts every input; under a parent that is no Task it raises; under a
    Task with an input schema it raises for an input that is no JSON and
    for a JSON value that the schema refuses; and it raises in no other
    case. *)
Theorem task_run_validation_cases (r : TaskRun.t) :
  (TaskRun.parent r = NoParent -> TaskRun.validate r = Ok tt) /\
  (forall e, TaskRun.validate r = Raise e <->
     (TaskRun.parent r = OtherParent /\ e = ParentNotTask) \/
     (exists task schema,
         TaskRun.parent r = Parent task /\
         Task.input_json_schema task = Some schema /\
         ((json_loads (TaskRun.input r) = None /\ e = InputNotJson) \/
          (exists instance,
              json_loads (TaskRun.input r) = Some instance /\
              validate_schema instance schema = false /\
              e = InputSchemaMismatch)))).
Proof.
  unfold TaskRun.validate, TaskRun.validate_input_format.
  split; [intros ->; reflexivity|].
  intros e. destruct (TaskRun.parent r) as [|task|].
  - split; [discriminate|].
    intros [[[=] _]|(task & schema & [=] & _)].
  - destruct (Task.input_json_schema task) as [schema|] eqn:Hs.
    + rewrite check_json_text_raise_iff by discriminate. split.
      * intros Hc. right. exists task, schema. auto.
      * intros [[[=] _]|(task' & schema' & [= <-] & Hs' & Hc)].
        rewrite Hs in Hs'. injection Hs' as <-. exact Hc.
    + split; [discriminate|].
      intros [[[=] _]|(task' & schema' & [= <-] & Hs' & _)]. congruence.
  - split.
    + intros [= <-]. left. auto.
    + intros [[_ ->]|(task & schema & [=] & _)]. reflexivity.
Qed.

(** X5. The conformance validator of a TaskOutput, case by case: it raises
    for a TaskRun parent whose parent is no Task, for an output that is no
    JSON and for a JSON value that the schema refuses, the last two under a
    Task with an output schema; and it raises in no other case. *)
Theorem output_format_error_cases (o : TaskOutput.t) (e : ValueError) :
  TaskOutput.validate_output_format o = Raise e <->
  (e = ParentNotTask /\
   exists run, TaskOutput.parent o = Parent run /\ TaskRun.parent run = OtherParent) \/
  (exists task schema,
      output_of_task o task /\
      Task.output_json_schema task = Some schema /\
      ((json_loads (TaskOutput.output o) = None /\ e = OutputNotJson) \/
       (exists instance,
           json_loads (TaskOutput.output o) = Some instance /\
           validate_schema instance schema = false /\
           e = OutputSchemaMismatch))).
Proof.
  unfold TaskOutput.validate_output_format, TaskOutput.task_for_validation,
    TaskOutput.parent_task_run, output_of_task, run_of_task.
  destruct (TaskOutput.parent o) as [|run|]; simpl.
  - split; [discriminate|].
    intros [(_ & run & [=] & _)|(task & schema & (run & [=] & _) & _)].
  - destruct (TaskRun.parent run) as [|task|] eqn:Hp; simpl.
    + split; [discriminate|].
      intros [(_ & run' & [= <-] & Hr)|(task & schema & (run' & [= <-] & Hr) & _)];
        congruence.
    + destruct (Task.output_json_schema task) as [schema|] eqn:Hs.
      * rewrite check_json_text_raise_iff by discriminate. split.
        -- intros Hc. right. exists task, schema.
           split; [exists run; auto | auto].
        -- intros [(_ & run' & [= <-] & Hr)|
                   (task' & schema' & (run' & [= <-] & Hr) & Hs' & Hc)];
             [congruence|].
           rewrite Hp in Hr. injection Hr as <-.
           rewrite Hs in Hs'. injection Hs' as <-. exact Hc.
      * split; [discriminate|].
        intros [(_ & run' & [= <-] & Hr)|
                (task' & schema' & (run' & [= <-] & Hr) & Hs' & _)];
          congruence.
    + split.
      * intros [= <-]. left. split; [reflexivity | exists run; auto].
      * intros [(-> & _)|(task & schema & (run' & [= <-] & Hr) & _)];
          [reflexivity | congruence].
  - split; [discriminate|].
    intros [(_ & run & [=] & _)|(task & schema & (run & [=] & _) & _)].
Qed.

End ParentChain.

(** ** Requirement rating keys, further *)

Section RatingKeysFurther.

Lemma rated_keys_empty (o : TaskOutput.t) :
  rated_keys o = ∅ <->
  match TaskOutput.rating o with
  | Some r => size (TaskOutputRating.requirement_ratings r) = 0%nat
  | None => True
  end.
Proof.
  unfold rated_keys. destruct (TaskOutput.rating o) as [r|]; [|tauto].
  rewrite <- size_dom. split.
  - intros ->. apply size_empty.
  - intros Hs. apply size_empty_inv in Hs. apply leibniz_equiv. exact Hs.
Qed.

(** X6. The validator of the requirement-rating keys does not look at the
    parent chain of an output that rates no requirement: it accepts it even
    under a TaskRun whose parent is no Task. With a requirement rated, such
    a parent chain is an error; and every other error names a rated key. *)
Theorem rating_keys_need_ratings (o : TaskOutput.t) :
  (rated_keys o = ∅ -> TaskOutput.validate_requirement_rating_keys o = Ok tt) /\
  (TaskOutput.validate_requirement_rating_keys o = Raise ParentNotTask <->
   rated_keys o <> ∅ /\
   exists run, TaskOutput.parent o = Parent run /\ TaskRun.parent run = OtherParent) /\
  (forall e, TaskOutput.validate_requirement_rating_keys o = Raise e ->
             e = ParentNotTask \/
             exists k, k ∈ rated_keys o /\ e = InvalidRequirementId k).
Proof.
  pose proof (rated_keys_empty o) as Hempty.
  unfold TaskOutput.validate_requirement_rating_keys, TaskOutput.task_for_validation,
    TaskOutput.parent_task_run in *.
  unfold rated_keys in *.
  destruct (TaskOutput.rating o) as [r|].
  - case_bool_decide as Hsize.
    + split; [reflexivity|]. split; [|discriminate].
      split; [discriminate|]. intros [Hne _]. exfalso. apply Hne, Hempty, Hsize.
    + assert (Hne : dom (TaskOutputRating.requirement_ratings r) <> ∅)
        by (intros Hd; apply Hsize, Hempty, Hd).
      split; [intros Hd; contradiction|].
      destruct (TaskOutput.parent o) as [|run|]; simpl.
      * split; [|discriminate].
        split; [discriminate | intros (_ & run & [=] & _)].
      * destruct (TaskRun.parent run) as [|task|] eqn:Hp; simpl.
        -- split; [|discriminate].
           split; [discriminate | intros (_ & run' & [= <-] & Hr); congruence].
        -- split.
           ++ split; [|intros (_ & run' & [= <-] & Hr); congruence].
              intros He. apply for_each_raise in He as (k & _ & He).
              unfold raise_if in He. destruct (negb _); discriminate.
           ++ intros e He. right.
              apply for_each_raise in He as (k & Hk & He).
              exists k. split.
              ** apply elem_of_dom, keys_of_map_to_list, Hk.
              ** unfold raise_if in He. destruct (negb _); congruence.
        -- split.
           ++ split; [|reflexivity]. intros _. split; [exact Hne | exists run; auto].
           ++ intros e [= <-]. left. reflexivity.
      * split; [|discriminate].
        split; [discriminate | intros (_ & run & [=] & _)].
  - split; [reflexivity|]. split; [|discriminate].
    split; [discriminate | intros [Hne _]; contradiction].
Qed.

End RatingKeysFurther.

(** ** Source properties, further *)

Section SourcePropertiesFurther.

(** The loop reads of the properties, for each key, whether it is absent
    and whether it is empty. *)
Lemma collect_missing_keys_agree (source : DataSourceType)
    (props props' : gmap string string) (keys acc : list string) :
  (forall k, k ∈ keys ->
             (props !! k = None <-> props' !! k = None) /\
             (props !! k = Some EmptyString <-> props' !! k = Some EmptyString)) ->
  TaskOutput.collect_missing_keys source props keys acc
  = TaskOutput.collect_missing_keys source props' keys acc.
Proof.
  revert acc. induction keys as [|k rest IH]; intros acc Hagree; [reflexivity|].
  assert (Hrest : forall k', k' ∈ rest ->
             (props !! k' = None <-> props' !! k' = None) /\
             (props !! k' = Some EmptyString <-> props' !! k' = Some EmptyString))
    by (intros k' Hk'; apply Hagree; right; exact Hk').
  destruct (Hagree k) as [Hnone Hempty]; [left|].
  simpl. destruct (props !! k) as [v|], (props' !! k) as [v'|].
  - destruct (decide (v = EmptyString)) as [->|Hv],
             (decide (v' = EmptyString)) as [->|Hv'].
    + reflexivity.
    + exfalso. apply Hv'. assert (Some v' = Some EmptyString) by (apply Hempty; reflexivity).
      congruence.
    + exfalso. apply Hv. assert (Some v = Some EmptyString) by (apply Hempty; reflexivity).
      congruence.
    + apply IH, Hrest.
  - exfalso. assert (Some v = None) by (apply Hnone; reflexivity). discriminate.
  - exfalso. assert (Some v' = None) by (apply Hnone; reflexivity). discriminate.
  - apply IH, Hrest.
Qed.

(** X7. The errors of the source-properties validator: a required key with
    the empty string as value is reported, whether or not other keys are
    missing; the error of missing keys is raised only when no required key
    is empty, and lists the required keys that are absent, all of them and
    no other. *)
Theorem source_properties_error_cases (o : TaskOutput.t) :
  (forall e, TaskOutput.validate_source_properties o = Raise e ->
     (exists k, k ∈ keys_required_for (TaskOutput.source o) /\
                TaskOutput.source_properties o !! k = Some EmptyString /\
                e = SourcePropertyEmpty k (TaskOutput.source o)) \/
     (exists missing,
         e = SourcePropertiesMissing missing (TaskOutput.source o) /\
         missing <> [] /\
         (forall k, k ∈ missing <->
                    k ∈ keys_required_for (TaskOutput.source o) /\
                    TaskOutput.source_properties o !! k = None) /\
         (forall k, k ∈ keys_required_for (TaskOutput.source o) ->
                    TaskOutput.source_properties o !! k <> Some EmptyString))) /\
  ((exists k, k ∈ keys_required_for (TaskOutput.source o) /\
              TaskOutput.source_properties o !! k = Some EmptyString) ->
   exists k, k ∈ keys_required_for (TaskOutput.source o) /\
             TaskOutput.source_properties o !! k = Some EmptyString /\
             TaskOutput.validate_source_properties o
             = Raise (SourcePropertyEmpty k (TaskOutput.source o))).
Proof.
  unfold TaskOutput.validate_source_properties.
  rewrite required_keys_spec. simpl.
  set (props := TaskOutput.source_properties o).
  set (source := TaskOutput.source o).
  set (keys := keys_required_for source).
  destruct (TaskOutput.collect_missing_keys source props keys []) as [l|e'] eqn:Hc; simpl.
  - apply collect_missing_keys_ok in Hc as [Hne ->]. simpl.
    rewrite Forall_forall in Hne. split.
    + intros e He. right.
      exists (filter (fun k => props !! k = None) keys).
      unfold raise_if in He.
      destruct (0 <? length (filter (fun k => props !! k = None) keys))%nat eqn:Hlen;
        [|discriminate].
      injection He as <-. split; [reflexivity|]. split; [|split].
      * intros Hnil. rewrite Hnil in Hlen. discriminate.
      * intros k. rewrite list_elem_of_filter. tauto.
      * exact Hne.
    + intros (k & Hk & Hv). exfalso. exact (Hne k Hk Hv).
  - apply collect_missing_keys_raise in Hc as (k & Hk & Hv & ->). split.
    + intros e [= <-]. left. exists k. auto.
    + intros _. exists k. auto.
Qed.

(** X8. The source-properties validator reads, of each key required for the
    source, only whether it is absent and whether it is empty: two outputs
    of the same source that agree on this have the same outcome, the same
    error included. Keys that are not required and the text of a non-empty
    value play no part. *)
Theorem source_properties_frame (o o' : TaskOutput.t) :
  TaskOutput.source o = TaskOutput.source o' ->
  (forall k, k ∈ keys_required_for (TaskOutput.source o) ->
     (TaskOutput.source_properties o !! k = None <->
      TaskOutput.source_properties o' !! k = None) /\
     (TaskOutput.source_properties o !! k = Some EmptyString <->
      TaskOutput.source_properties o' !! k = Some EmptyString)) ->
  TaskOutput.validate_source_properties o = TaskOutput.validate_source_properties o'.
Proof.
  intros Hs Hagree. unfold TaskOutput.validate_source_properties.
  rewrite <- Hs, required_keys_spec. simpl.
  rewrite (collect_missing_keys_agree _ _ (TaskOutput.source_properties o') _ _ Hagree).
  reflexivity.
Qed.

End SourcePropertiesFurther.

(** ** What the validation of a TaskOutput reads *)

Section ValidatedFields.

Context `{JsonLib}.

(** The key validator accepts exactly when no requirement is rated, when
    no Task is found, or when every rated id is a requirement of the Task:
    a condition on the set of the rated ids, whatever the order in which
    the keys are visited. *)
Lemma rating_keys_ok_iff (o : TaskOutput.t) :
  TaskOutput.validate_requirement_rating_keys o = Ok tt <->
  rated_keys o = ∅ \/
  match TaskOutput.task_for_validation o with
  | Ok None => True
  | Ok (Some task) =>
      forall k, k ∈ rated_keys o -> k ∈ TaskOutput.valid_requirement_ids task
  | Raise _ => False
  end.
Proof.
  pose proof (rated_keys_empty o) as Hempty.
  unfold TaskOutput.validate_requirement_rating_keys.
  unfold rated_keys in *.
  destruct (TaskOutput.rating o) as [r|]; [|split; [left; reflexivity | reflexivity]].
  case_bool_decide as Hsize.
  - split; [intros _; left; apply Hempty, Hsize | reflexivity].
  - assert (Hne : dom (TaskOutputRating.requirement_ratings r) <> ∅)
      by (intros Hd; apply Hsize, Hempty, Hd).
    destruct (TaskOutput.task_for_validation o) as [[task|]|e]; simpl.
    + rewrite for_each_ok, Forall_forall. split.
      * intros Hall. right. intros k Hk.
        apply elem_of_dom, keys_of_map_to_list in Hk. specialize (Hall k Hk).
        apply raise_if_ok, negb_false_iff, bool_decide_eq_true in Hall. exact Hall.
      * intros [Hd|Hall]; [contradiction|]. intros k Hk.
        apply raise_if_ok, negb_false_iff, bool_decide_eq_true.
        apply Hall, elem_of_dom, keys_of_map_to_list, Hk.
    + split; [intros _; right; exact I | reflexivity].
    + split; [discriminate | intros [Hd|[]]; contradiction].
Qed.

(** An error of the key validator is that of the parent chain, or names a
    rated id. *)
Lemma rating_keys_raise_named (o : TaskOutput.t) (e : ValueError) :
  TaskOutput.validate_requirement_rating_keys o = Raise e ->
  TaskOutput.task_for_validation o = Raise e \/
  exists k, k ∈ rated_keys o /\ e = InvalidRequirementId k.
Proof.
  unfold TaskOutput.validate_requirement_rating_keys, rated_keys.
  destruct (TaskOutput.rating o) as [r|]; [|discriminate].
  case_bool_decide as Hsize; [discriminate|].
  destruct (TaskOutput.task_for_validation o) as [[task|]|e0]; simpl.
  - intros He. right. apply for_each_raise in He as (k & Hk & He).
    exists k. split; [apply elem_of_dom, keys_of_map_to_list, Hk|].
    unfold raise_if in He. destruct (negb _); congruence.
  - discriminate.
  - intros [= <-]. left. reflexivity.
Qed.

(** X9. The validation of a TaskOutput reads its output, its source, its
    source properties, its parent and the ids it rates, and nothing else:
    two outputs that agree on these are accepted together and refused
    together, and refused with the same error, save that the error of an
    unknown requirement id may name another of the rated ids. The fixed
    output is not checked against the schema of the task, and the values of
    the rating play no part. *)
Theorem task_output_validated_fields (o o' : TaskOutput.t) :
  TaskOutput.output o = TaskOutput.output o' ->
  TaskOutput.source o = TaskOutput.source o' ->
  TaskOutput.source_properties o = TaskOutput.source_properties o' ->
  TaskOutput.parent o = TaskOutput.parent o' ->
  rated_keys o = rated_keys o' ->
  (TaskOutput.validate o = Ok tt <-> TaskOutput.validate o' = Ok tt) /\
  (forall e, TaskOutput.validate o = Raise e ->
     exists e', TaskOutput.validate o' = Raise e' /\
                (e' = e \/
                 exists k k', k ∈ rated_keys o /\ k' ∈ rated_keys o /\
                              e = InvalidRequirementId k /\
                              e' = InvalidRequirementId k')).
Proof.
  intros Hout Hsrc Hprops Hpar Hkeys.
  assert (Htask : TaskOutput.task_for_validation o = TaskOutput.task_for_validation o')
    by (unfold TaskOutput.task_for_validation, TaskOutput.parent_task_run;
        rewrite Hpar; reflexivity).
  assert (Hfmt : TaskOutput.validate_output_format o
                 = TaskOutput.validate_output_format o')
    by (unfold TaskOutput.validate_output_format; rewrite Htask, Hout; reflexivity).
  assert (Hsp : TaskOutput.validate_source_properties o
                = TaskOutput.validate_source_properties o')
    by (apply validate_source_properties_ext; assumption).
  assert (Hrk : TaskOutput.validate_requirement_rating_keys o = Ok tt <->
                TaskOutput.validate_requirement_rating_keys o' = Ok tt)
    by (rewrite !rating_keys_ok_iff, <- Htask, <- Hkeys; reflexivity).
  split.
  - rewrite !validate_task_output_ok, <- Hfmt, <- Hsp, Hrk. reflexivity.
  - intros e He. unfold TaskOutput.validate in *. rewrite <- Hfmt, <- Hsp.
    destruct (TaskOutput.validate_output_format o) as [[]|ef] eqn:Ef; simpl in *;
      [|exists e; split; [exact He | left; reflexivity]].
    destruct (TaskOutput.validate_requirement_rating_keys o) as [[]|ek] eqn:Ek;
      simpl in *.
    + rewrite (proj1 Hrk eq_refl). simpl.
      exists e. split; [exact He | left; reflexivity].
    + injection He as <-.
      destruct (TaskOutput.validate_requirement_rating_keys o') as [[]|ek'] eqn:Ek'.
      * pose proof (proj2 Hrk eq_refl) as Hok. discriminate Hok.
      * simpl. exists ek'. split; [reflexivity|]. right.
        assert (Hchain : forall e0, TaskOutput.task_for_validation o <> Raise e0).
        { intros e0 Ht. unfold TaskOutput.validate_output_format in Ef.
          rewrite Ht in Ef. discriminate Ef. }
        apply rating_keys_raise_named in Ek as [Ht|(k & Hk & ->)];
          [exfalso; exact (Hchain _ Ht)|].
        apply rating_keys_raise_named in Ek' as [Ht|(k' & Hk' & ->)];
          [exfalso; rewrite <- Htask in Ht; exact (Hchain _ Ht)|].
        exists k, k'. rewrite Hkeys at 2. auto.
Qed.

End ValidatedFields.

(** ** DataSource *)

Section DataSourceProperties.

Import DataSource.

(** Membership in the short lists of the table. *)
Ltac source_elem :=
  simpl;
  first [ solve [repeat constructor]
        | let Hx := fresh in
          intros Hx;
          repeat (apply elem_of_cons in Hx as [Hx|Hx]; [discriminate Hx|]);
          inversion Hx ].

Lemma for_each_ext {A : Type} (f g : A -> result unit) (l : list A) :
  (forall x, x ∈ l -> f x = g x) -> for_each f l = for_each g l.
Proof.
  induction l as [|x rest IH]; intros Hfg; [reflexivity|].
  simpl. rewrite (Hfg x) by left. rewrite IH; [reflexivity|].
  intros y Hy. apply Hfg. right. exact Hy.
Qed.

Lemma isinstance_str (v : value) : isinstance v "str" = true <-> exists s, v = VStr s.
Proof.
  destruct v; simpl; split; try discriminate; eauto; intros [s' [=]].
Qed.

(** A property required for the type of the source must be there, with a
    value of its type. *)
Lemma validate_property_required (self : t) (prop : DataSourceProperty) :
  source_type self ∈ required_for prop ->
  (validate_property self prop = Ok tt <->
   exists v, properties self !! name prop = Some v /\ isinstance v (type prop) = true).
Proof.
  intros Hreq. unfold validate_property.
  rewrite bool_decide_eq_true_2 by exact Hreq.
  destruct (properties self !! name prop) as [v|].
  - rewrite raise_if_ok, negb_false_iff. split.
    + intros Hv. exists v. auto.
    + intros (v' & [= <-] & Hv). exact Hv.
  - split; [discriminate | intros (v & [=] & _)].
Qed.

(** A property that is not required must be absent if it is not allowed. *)
Lemma validate_property_optional (self : t) (prop : DataSourceProperty) :
  source_type self ∉ required_for prop ->
  (validate_property self prop = Ok tt <->
   (source_type self ∈ not_allowed_for prop -> properties self !! name prop = None)).
Proof.
  intros Hreq. unfold validate_property.
  rewrite bool_decide_eq_false_2 by exact Hreq.
  rewrite raise_if_ok, andb_false_iff, !bool_decide_eq_false. split.
  - intros [Hn|Hn] Hin; [contradiction|].
    destruct (properties self !! name prop); [exfalso; apply Hn; eauto | reflexivity].
  - intros Hin. destruct (decide (source_type self ∈ not_allowed_for prop)) as [Hd|Hd].
    + right. rewrite (Hin Hd). intros [v [=]].
    + left. exact Hd.
Qed.

(** X10. A human data source validates if and only if created_by is given
    as a string and none of model_name, model_provider and prompt_type is
    given. *)
Theorem data_source_human (props : gmap string value) :
  validate_properties {| source_type := human; properties := props |} = Ok tt <->
  is_str (props !! "created_by") /\
  props !! "model_name" = None /\
  props !! "model_provider" = None /\
  props !! "prompt_type" = None.
Proof.
  unfold validate_properties, _data_source_properties.
  rewrite for_each_ok, !Forall_cons, Forall_nil.
  rewrite validate_property_required by source_elem.
  rewrite !validate_property_optional by source_elem.
  simpl. unfold is_str. split.
  - intros ((v & Hv & Hi) & H1 & H2 & H3 & _).
    apply isinstance_str in Hi as [s ->].
    split; [exists s; exact Hv|].
    split; [apply H1; source_elem|]. split; [apply H2; source_elem | apply H3; source_elem].
  - intros ((s & Hs) & H1 & H2 & H3).
    split; [exists (VStr s); split; [exact Hs | reflexivity]|].
    repeat split; auto.
Qed.

(** X11. A synthetic data source validates if and only if model_name and
    model_provider are given as strings and created_by is not given.
    prompt_type is free: whether it is given, and with a value of which
    type, changes nothing to the outcome. *)
Theorem data_source_synthetic (props : gmap string value) :
  (validate_properties {| source_type := synthetic; properties := props |} = Ok tt <->
   is_str (props !! "model_name") /\
   is_str (props !! "model_provider") /\
   props !! "created_by" = None) /\
  (forall v : value,
      validate_properties
        {| source_type := synthetic; properties := <[ "prompt_type" := v ]> props |}
      = validate_properties {| source_type := synthetic; properties := props |}).
Proof.
  split.
  - unfold validate_properties, _data_source_properties.
    rewrite for_each_ok, !Forall_cons, Forall_nil.
    rewrite !(validate_property_required _ {| name := "model_name" |})
      by source_elem.
    rewrite !(validate_property_required _ {| name := "model_provider" |})
      by source_elem.
    rewrite !validate_property_optional by source_elem.
    simpl. unfold is_str. split.
    + intros (H1 & (v & Hv & Hi) & (v' & Hv' & Hi') & _ & _).
      apply isinstance_str in Hi as [s ->]. apply isinstance_str in Hi' as [s' ->].
      split; [exists s; exact Hv|]. split; [exists s'; exact Hv'|].
      apply H1. source_elem.
    + intros ((s & Hs) & (s' & Hs') & H1).
      split; [intros _; exact H1|].
      split; [exists (VStr s); split; [exact Hs | reflexivity]|].
      split; [exists (VStr s'); split; [exact Hs' | reflexivity]|].
      split; [|exact I]. intros Hin. exfalso. revert Hin. source_elem.
  - intros v. unfold validate_properties. apply for_each_ext.
    intros prop Hprop. unfold _data_source_properties in Hprop.
    repeat (apply elem_of_cons in Hprop as [->|Hprop]);
      [| | | |inversion Hprop];
      unfold validate_property; simpl;
      first [rewrite lookup_insert_ne by discriminate; reflexivity | reflexivity].
Qed.

(** X12. Properties the table does not name are not looked at: adding or
    removing one changes nothing to the outcome of the validation. *)
Theorem data_source_other_keys (self : t) (k : string) (v : value) :
  k ∉ (name <$> _data_source_properties) ->
  validate_properties
    {| source_type := source_type self; properties := <[ k := v ]> (properties self) |}
  = validate_properties self /\
  validate_properties
    {| source_type := source_type self; properties := delete k (properties self) |}
  = validate_properties self.
Proof.
  intros Hk.
  assert (Hne : forall prop, prop ∈ _data_source_properties -> k <> name prop).
  { intros prop Hprop ->. apply Hk. apply list_elem_of_fmap. exists prop. auto. }
  split; unfold validate_properties; apply for_each_ext; intros prop Hprop;
    unfold validate_property; simpl.
  - rewrite lookup_insert_ne by (apply Hne, Hprop). reflexivity.
  - rewrite lookup_delete_ne by (apply Hne, Hprop). reflexivity.
Qed.

(** X13. Every error of the validation of a data source is about a
    property of the table and is justified: required and absent, required
    and of another type than declared, or given though not allowed. The
    first row of the table is the first checked: for a human source without
    created_by, and for a synthetic one with it, the error is about
    created_by whatever the other properties are. *)
Theorem data_source_error_cases (self : t) :
  (forall e, validate_properties self = Raise e ->
     exists prop, prop ∈ _data_source_properties /\
       ((e = PropertyRequired (name prop) (source_type self) /\
         source_type self ∈ required_for prop /\
         properties self !! name prop = None) \/
        (e = PropertyWrongType (name prop) (type prop) (source_type self) /\
         source_type self ∈ required_for prop /\
         exists v, properties self !! name prop = Some v /\
                   isinstance v (type prop) = false) \/
        (e = PropertyNotAllowed (name prop) (source_type self) /\
         (source_type self ∉ required_for prop) /\
         source_type self ∈ not_allowed_for prop /\
         is_Some (properties self !! name prop)))) /\
  (source_type self = human -> properties self !! "created_by" = None ->
   validate_properties self = Raise (PropertyRequired "created_by" human)) /\
  (source_type self = synthetic -> is_Some (properties self !! "created_by") ->
   validate_properties self = Raise (PropertyNotAllowed "created_by" synthetic)).
Proof.
  split; [|split].
  - intros e He. unfold validate_properties in He.
    apply for_each_raise in He as (prop & Hprop & He).
    exists prop. split; [exact Hprop|].
    unfold validate_property in He.
    case_bool_decide as Hreq.
    + destruct (properties self !! name prop) as [v|] eqn:Hv.
      * right; left. unfold raise_if in He.
        destruct (isinstance v (type prop)) eqn:Hi; simpl in He; [discriminate|].
        injection He as <-. split; [reflexivity|]. split; [exact Hreq|].
        exists v. auto.
      * left. injection He as <-. auto.
    + right; right. unfold raise_if in He.
      case_bool_decide as Hna; simpl in He; [|discriminate].
      case_bool_decide as Hin; simpl in He; [|discriminate].
      injection He as <-. auto.
  - destruct self as [source props]. simpl. intros -> Hv.
    assert (Hrow : validate_property {| source_type := human; properties := props |}
                     {| name := "created_by"; type := "str";
                        required_for := [human]; not_allowed_for := [synthetic] |}
                   = Raise (PropertyRequired "created_by" human))
      by (unfold validate_property; simpl; rewrite Hv; reflexivity).
    unfold validate_properties, _data_source_properties. cbn [for_each].
    rewrite Hrow. reflexivity.
  - destruct self as [source props]. simpl. intros -> Hv.
    assert (Hrow : validate_property {| source_type := synthetic; properties := props |}
                     {| name := "created_by"; type := "str";
                        required_for := [human]; not_allowed_for := [synthetic] |}
                   = Raise (PropertyNotAllowed "created_by" synthetic))
      by (unfold validate_property; simpl;
          rewrite (bool_decide_eq_true_2 _ Hv); reflexivity).
    unfold validate_properties, _data_source_properties. cbn [for_each].
    rewrite Hrow. reflexivity.
Qed.

End DataSourceProperties.

(** ** The fields of a Task and of a TaskRequirement *)

Section Fields.

Context `{JsonLib}.

(** [Field(min_length=1)]: any string but the empty one. *)
Lemma min_length_one_ok (field s : string) :
  validate_str_field field (Field (Some 1%nat) None None) s = Ok tt <-> s <> EmptyString.
Proof.
  unfold validate_str_field. simpl.
  rewrite !seq_ok, !raise_if_ok, Nat.ltb_ge.
  destruct s as [|c s]; simpl; split.
  - intros [Hl _]. lia.
  - intros Hs. contradiction.
  - discriminate.
  - intros _. split; [lia | split; reflexivity].
Qed.

(** X14. A TaskRequirement validates if and only if its name is filename
    safe and its instruction is not empty; its description and its priority
    are free. *)
Theorem task_requirement_valid (r : TaskRequirement.t) :
  TaskRequirement.validate r = Ok tt <->
  filename_safe (TaskRequirement.name r) /\
  TaskRequirement.instruction r <> EmptyString.
Proof.
  unfold TaskRequirement.validate.
  rewrite seq_ok, name_field_ok, min_length_one_ok. reflexivity.
Qed.

(** X15. A Task validates if and only if its name is filename safe, its
    instruction is not empty, and each of the two schemas it declares is
    accepted as the schema of a JSON object; a Task may declare none. *)
Theorem task_valid (t : Task.t) :
  Task.validate t = Ok tt <->
  filename_safe (Task.name t) /\
  Task.instruction t <> EmptyString /\
  (forall s, Task.output_json_schema t = Some s -> json_object_schema s = true) /\
  (forall s, Task.input_json_schema t = Some s -> json_object_schema s = true).
Proof.
  assert (Hfield : forall field v,
             Task.validate_schema_field field v = Ok tt <->
             forall s, v = Some s -> json_object_schema s = true).
  { intros field [s|]; simpl.
    - rewrite raise_if_ok, negb_false_iff. split.
      + intros Hs s' [= <-]. exact Hs.
      + intros Hs. apply Hs. reflexivity.
    - split; [intros _ s [=] | reflexivity]. }
  unfold Task.validate.
  rewrite !seq_ok, name_field_ok, min_length_one_ok, !Hfield. reflexivity.
Qed.

End Fields.

(** ** Names as path segments *)

Section NamesAsSegments.

Lemma name_char_not_special (c : ascii) : name_char c -> c ∉ path_special.
Proof.
  intros Hc Hin. unfold path_special in Hin.
  repeat (apply elem_of_cons in Hin as [->|Hin];
          [unfold name_char, between, code in Hc; simpl in Hc;
           repeat (destruct Hc as [Hc|Hc]); try discriminate Hc; lia|]).
  inversion Hin.
Qed.

(** X16. A name that passes [NAME_FIELD] holds none of the characters that
    separate the segments of a path or are reserved in file names, and is
    neither of the directory names dot and dot-dot: it is one segment of a
    path. *)
Theorem names_are_path_segments (field s : string) :
  validate_str_field field NAME_FIELD s = Ok tt ->
  Forall (fun c => c ∉ path_special) (list_ascii_of_string s) /\
  s <> "." /\ s <> "..".
Proof.
  intros Hs. apply name_field_ok in Hs as [Hchars _].
  assert (Hall : Forall (fun c => c ∉ path_special) (list_ascii_of_string s))
    by (eapply Forall_impl; [exact Hchars | exact name_char_not_special]).
  split; [exact Hall|].
  split; intros ->; simpl in Hall; apply Forall_cons in Hall as [Hdot _];
    apply Hdot; unfold path_special; set_solver.
Qed.

Lemma list_ascii_of_string_app (s t : string) :
  list_ascii_of_string (s +:+ t) = (list_ascii_of_string s ++ list_ascii_of_string t)%list.
Proof. induction s as [|c s IH]; simpl; [reflexivity | now rewrite IH]. Qed.

Lemma length_app_string (s t : string) :
  String.length (s +:+ t) = (String.length s + String.length t)%nat.
Proof. induction s as [|c s IH]; simpl; [reflexivity | now rewrite IH]. Qed.

(** X17. Filename-safe names compose: two accepted names put together are
    accepted as long as the whole is not longer than 120 characters, and a
    part of an accepted name, at its start or at its end, is accepted
    unless it is empty. *)
Theorem names_compose (field s t : string) :
  (validate_str_field field NAME_FIELD s = Ok tt ->
   validate_str_field field NAME_FIELD t = Ok tt ->
   (String.length s + String.length t <= 120)%nat ->
   validate_str_field field NAME_FIELD (s +:+ t) = Ok tt) /\
  (validate_str_field field NAME_FIELD (s +:+ t) = Ok tt ->
   (s <> EmptyString -> validate_str_field field NAME_FIELD s = Ok tt) /\
   (t <> EmptyString -> validate_str_field field NAME_FIELD t = Ok tt)).
Proof.
  rewrite !name_field_ok. unfold filename_safe.
  rewrite list_ascii_of_string_app, length_app_string, Forall_app.
  split.
  - intros [Hs Hls] [Ht Hlt] Hlen. split; [split; assumption | lia].
  - intros [[Hs Ht] Hlen]. split; intros Hne.
    + split; [exact Hs|]. destruct s; [contradiction | simpl in *; lia].
    + split; [exact Ht|]. destruct t; [contradiction | simpl in *; lia].
Qed.

End NamesAsSegments.

(** ** The enumerations *)

Section Enumerations.

(** X18. [Priority] by value: the call [Priority(n)] returns a member
    exactly for the integers 0 to 3, the member it returns is the one whose
    value is [n], and the members are ordered as their values, p0 first. *)
Theorem priority_by_value :
  (forall (n : Z) (p : Priority), Priority_call n = Some p <-> n = Priority_value p) /\
  (forall n : Z, is_Some (Priority_call n) <-> 0 <= n <= 3) /\
  (forall p q : Priority,
      Priority_lt p q = true <->
      exists i j, Priority_members !! i = Some p /\
                  Priority_members !! j = Some q /\ (i < j)%nat).
Proof.
  assert (Hcall : forall n p, Priority_call n = Some p <-> n = Priority_value p).
  { intros n p. unfold Priority_call, enum_call, Priority_members. split.
    - intros Hc. apply fmap_Some in Hc as ([i p'] & Hf & ->).
      apply list_find_Some in Hf as (_ & Hv & _). simpl. symmetry. exact Hv.
    - intros ->. destruct p; reflexivity. }
  assert (Hindex : forall (i : nat) (p : Priority),
             Priority_members !! i = Some p -> Priority_value p = Z.of_nat i).
  { intros i p Hi. unfold Priority_members in Hi.
    destruct i as [|[|[|[|i]]]]; simpl in Hi; try discriminate;
      injection Hi as <-; reflexivity. }
  split; [exact Hcall|]. split.
  - intros n. split.
    + intros [p Hp]. apply Hcall in Hp as ->. destruct p; simpl; lia.
    + intros Hn.
      assert (Hcases : n = 0 \/ n = 1 \/ n = 2 \/ n = 3) by lia.
      destruct Hcases as [-> | [-> | [-> | ->]]]; eexists; reflexivity.
  - intros p q. unfold Priority_lt. rewrite Z.ltb_lt. split.
    + intros Hlt.
      exists (Z.to_nat (Priority_value p)), (Z.to_nat (Priority_value q)).
      destruct p, q; simpl in Hlt; try lia; simpl;
        (split; [reflexivity | split; [reflexivity | lia]]).
    + intros (i & j & Hi & Hj & Hlt).
      rewrite (Hindex i p Hi), (Hindex j q Hj). lia.
Qed.

(** X19. The three string enumerations by value: a text names a member
    exactly when it is the value of that member, so that each member is
    read back from its own value, and any other text, [invalid_source] for
    one, is refused. *)
Theorem string_enums_by_value :
  (forall (s : string) (d : DataSourceType),
      DataSourceType_call s = Some d <-> s = DataSourceType_value d) /\
  (forall (s : string) (ty : TaskOutputRatingType),
      TaskOutputRatingType_call s = Some ty <-> s = TaskOutputRatingType_value ty) /\
  (forall (s : string) (d : TaskDeterminism),
      TaskDeterminism_call s = Some d <-> s = TaskDeterminism_value d) /\
  DataSourceType_call "invalid_source" = None.
Proof.
  split; [|split; [|split]]; [| | |reflexivity].
  - intros s d. unfold DataSourceType_call, enum_call. split.
    + intros Hc. apply fmap_Some in Hc as ([i d'] & Hf & ->).
      apply list_find_Some in Hf as (_ & Hv & _). simpl. symmetry. exact Hv.
    + intros ->. destruct d; reflexivity.
  - intros s ty. unfold TaskOutputRatingType_call, enum_call. split.
    + intros Hc. apply fmap_Some in Hc as ([i ty'] & Hf & ->).
      apply list_find_Some in Hf as (_ & Hv & _). simpl. symmetry. exact Hv.
    + intros ->. destruct ty; reflexivity.
  - intros s d. unfold TaskDeterminism_call, enum_call. split.
    + intros Hc. apply fmap_Some in Hc as ([i d'] & Hf & ->).
      apply list_find_Some in Hf as (_ & Hv & _). simpl. symmetry. exact Hv.
    + intros ->. destruct d; reflexivity.
Qed.

End Enumerations.

(** ** Project management *)

Section ProjectManagement.

Context `{ConfigStore}.

Lemma add_project_present (p : string) (c : Config) (l : list string) :
  Config_projects c = Some l -> p ∈ l -> add_project_to_config p c = c.
Proof.
  intros Hc Hp. unfold add_project_to_config. rewrite Hc.
  rewrite bool_decide_eq_true_2 by exact Hp. reflexivity.
Qed.

Lemma add_project_projects (p : string) (c : Config) :
  Config_projects (add_project_to_config p c)
  = Some (let l := match Config_projects c with Some l => l | None => [] end in
          if bool_decide (p ∈ l) then l else (l ++ [p])%list).
Proof.
  unfold add_project_to_config.
  destruct (Config_projects c) as [l|] eqn:Hc; simpl.
  - case_bool_decide; [exact Hc | apply Config_projects_saved].
  - try rewrite bool_decide_eq_false_2 by (intros Hin; inversion Hin).
    apply Config_projects_saved.
Qed.

(** X20. After [add_project_to_config] the setting is a list that holds the
    path. The projects listed before are all kept, in their order and
    before the new one, and nothing but the path is added; a setting that
    was no list is replaced by the list of the path alone. *)
Theorem add_project_registers (p : string) (c : Config) :
  exists l, Config_projects (add_project_to_config p c) = Some l /\
            p ∈ l /\
            (forall old, Config_projects c = Some old ->
                         old `prefix_of` l /\
                         (forall q, q ∈ l <-> q ∈ old \/ q = p)) /\
            (Config_projects c = None -> l = [p]).
Proof.
  rewrite add_project_projects.
  destruct (Config_projects c) as [old|]; simpl.
  - case_bool_decide as Hin.
    + exists old. split; [reflexivity|]. split; [exact Hin|]. split; [|discriminate].
      intros old' [= <-]. split; [reflexivity|].
      intros q. split; [auto | intros [Hq|Hq]; [exact Hq | subst q; exact Hin]].
    + exists (old ++ [p])%list. split; [reflexivity|].
      split; [apply elem_of_app; right; left|]. split; [|discriminate].
      intros old' [= <-]. split; [apply prefix_app_r; reflexivity|].
      intros q. rewrite elem_of_app, list_elem_of_singleton. reflexivity.
  - try rewrite bool_decide_eq_false_2 by (intros Hin; inversion Hin).
    exists [p]. split; [reflexivity|]. split; [left|]. split; [discriminate | reflexivity].
Qed.

(** The store after the call lists the path. *)
Lemma add_project_listed (p : string) (c : Config) :
  exists l, Config_projects (add_project_to_config p c) = Some l /\ p ∈ l.
Proof.
  rewrite add_project_projects.
  destruct (Config_projects c) as [old|]; simpl.
  - case_bool_decide as Hin; eexists; (split; [reflexivity|]);
      [exact Hin | apply elem_of_app; right; left].
  - try rewrite bool_decide_eq_false_2 by (intros Hin; inversion Hin).
    exists [p]. split; [reflexivity | left].
Qed.

(** X21. [add_project_to_config] never lists a path twice: a store that
    lists the path already is left as it is, without a write; adding the
    same path again changes nothing; and a list without repetition stays
    without repetition. *)
Theorem add_project_no_duplicate (p : string) (c : Config) :
  (forall l, Config_projects c = Some l -> p ∈ l -> add_project_to_config p c = c) /\
  add_project_to_config p (add_project_to_config p c) = add_project_to_config p c /\
  (forall l, Config_projects c = Some l -> NoDup l ->
             exists l', Config_projects (add_project_to_config p c) = Some l' /\
                        NoDup l').
Proof.
  split; [intros l; apply add_project_present|]. split.
  - destruct (add_project_listed p c) as (l & Hl & Hp).
    exact (add_project_present p _ l Hl Hp).
  - intros l Hc Hnd. rewrite add_project_projects, Hc. simpl.
    case_bool_decide as Hin; eexists; (split; [reflexivity|]); [exact Hnd|].
    apply NoDup_app. split; [exact Hnd|]. split; [|apply NoDup_singleton].
    intros q Hq Hq'. apply list_elem_of_singleton in Hq' as ->. contradiction.
Qed.

Context {LoadedProject : Type}.
Variable path_exists : string -> bool.
Variable load_from_file : string -> option LoadedProject.
Variable path_of : LoadedProject -> option string.

(** X22. [import_project] writes the settings only when the project has
    been loaded: the answer 400 is that of a path that does not exist, the
    answer 500 that of a file that exists and does not load, and both leave
    the store as it was. A project that is returned has been loaded from
    the path, and the store lists the path afterwards. *)
Theorem import_project_registers_loaded (project_path : string) (c : Config) :
  match import_project path_exists load_from_file project_path c with
  | (inl e, c') =>
      c' = c /\
      (status_code e = 400%nat <-> path_exists project_path = false) /\
      (status_code e = 500%nat <->
       path_exists project_path = true /\ load_from_file project_path = None)
  | (inr project, c') =>
      path_exists project_path = true /\
      load_from_file project_path = Some project /\
      exists l, Config_projects c' = Some l /\ project_path ∈ l
  end.
Proof.
  unfold import_project.
  destruct (path_exists project_path); simpl.
  - destruct (load_from_file project_path) as [project|]; simpl.
    + split; [reflexivity|]. split; [reflexivity|].
      apply add_project_listed.
    + split; [reflexivity|]. split; [split; discriminate|].
      split; [auto | reflexivity].
  - split; [reflexivity|]. split; [split; reflexivity|].
    split; [discriminate | intros [[=] _]].
Qed.

Lemma get_projects_loop_spec (paths : list string)
    (projects : list (LoadedProject * string)) (printed : list string) :
  get_projects_loop load_from_file path_of paths projects printed
  = ((projects ++
      omap (fun p => (fun project => (project, str_of_path (path_of project)))
                     <$> load_from_file p) paths)%list,
     (printed ++ filter (fun p => load_from_file p = None) paths)%list).
Proof.
  revert projects printed.
  induction paths as [|p rest IH]; intros projects printed; simpl.
  - rewrite !app_nil_r. reflexivity.
  - destruct (load_from_file p) as [project|] eqn:Hp; simpl.
    + rewrite IH, <- app_assoc. simpl.
      rewrite filter_cons_False by (rewrite Hp; discriminate). reflexivity.
    + rewrite IH, filter_cons_True by exact Hp.
      rewrite <- app_assoc. reflexivity.
Qed.

(** X23. [get_projects] answers with the projects of the listed paths that
    load, in the order of the list, each with the text of its path; a path
    that does not load is reported and skipped, and takes nothing from the
    paths after it: every path is either answered or reported. *)
Theorem get_projects_lists_loadable (project_paths : list string) :
  (get_projects load_from_file path_of project_paths).1
  = omap (fun p => (fun project => (project, str_of_path (path_of project)))
                   <$> load_from_file p) project_paths /\
  (get_projects load_from_file path_of project_paths).2
  = filter (fun p => load_from_file p = None) project_paths /\
  (length (get_projects load_from_file path_of project_paths).1
   + length (get_projects load_from_file path_of project_paths).2
   = length project_paths)%nat /\
  (forall before after bad,
      load_from_file bad = None ->
      (get_projects load_from_file path_of (before ++ bad :: after)).1
      = (get_projects load_from_file path_of (before ++ after)).1).
Proof.
  unfold get_projects. rewrite get_projects_loop_spec. simpl.
  split; [reflexivity|]. split; [reflexivity|]. split.
  - induction project_paths as [|p rest IH]; [reflexivity|]. simpl.
    destruct (load_from_file p) as [project|] eqn:Hp; simpl.
    + rewrite filter_cons_False by (rewrite Hp; discriminate). simpl.
      f_equal. exact IH.
    + rewrite filter_cons_True by exact Hp. simpl.
      rewrite Nat.add_succ_r. f_equal. exact IH.
  - intros before after bad Hbad. rewrite !get_projects_loop_spec. simpl.
    rewrite !omap_app. simpl. rewrite Hbad. reflexivity.
Qed.

End ProjectManagement.

(* ===================================================================== *)
(** * The further properties on the entities of the test suite *)

Section FurtherOnExamples.

Import Examples MoreExamples.

#[local] Existing Instance MiniJson.lib.

(** A NaN is refused as not an integer. *)
Lemma five_star_error_cases_witness :
  TaskOutputRating._validate_five_star S754_nan "overall rating"
  = Raise (FiveStarNotInteger "overall rating").
Proof.
  apply (proj2 (proj2 (proj2 (five_star_error_cases S754_nan "overall rating")))).
  reflexivity.
Defined.


(** For an output whose parent is no TaskRun no Task is looked for. *)
Lemma task_for_validation_errors_witness :
  let o := human_output john_thirty by_john_doe None OtherParent in
  TaskOutput.task_for_validation o = Ok None.
Proof.
  intros o.
  exact (proj2 (proj2 (proj2 (task_for_validation_errors o))) eq_refl).
Defined.

(** A run without parent validates with any input; under the structured
    task, the input with the age spelled out is refused by the schema. *)
Lemma task_run_validation_cases_witness :
  TaskRun.validate (run john_thirty NoParent) = Ok tt /\
  TaskRun.validate (run john_thirty (Parent structured_task))
  = Raise InputSchemaMismatch.
Proof.
  split.
  - exact (proj1 (task_run_validation_cases (run john_thirty NoParent)) eq_refl).
  - apply (proj2 (task_run_validation_cases (run john_thirty (Parent structured_task)))).
    right. exists structured_task, person_schema.
    split; [reflexivity|]. split; [reflexivity|].
    right. eexists. split; [vm_compute; reflexivity|].
    split; [vm_compute; reflexivity | reflexivity].
Defined.

(** An output that is no JSON, under the structured task. *)
Lemma output_format_error_cases_witness :
  TaskOutput.validate_output_format
    (human_output "Test output" by_john_doe None
       (Parent (run john_30 (Parent structured_task))))
  = Raise OutputNotJson.
Proof.
  apply output_format_error_cases.
  right. exists structured_task, person_schema.
  split; [eexists; split; reflexivity|]. split; [reflexivity|].
  left. split; [vm_compute; reflexivity | reflexivity].
Defined.

(** Without rating, a TaskRun parent under no Task is not an error of the
    key validator. *)
Lemma rating_keys_need_ratings_witness :
  TaskOutput.validate_requirement_rating_keys
    (human_output "Test output" by_john_doe None (Parent (run "Test input" OtherParent)))
  = Ok tt.
Proof.
  apply (proj1 (rating_keys_need_ratings _)). reflexivity.
Defined.

(** An empty model_name is reported though the adapter and the prompt
    builder are missing. *)
Lemma source_properties_error_cases_witness :
  let o := {| TaskOutput.output := "Test output";
              TaskOutput.source := synthetic;
              TaskOutput.source_properties :=
                {[ "model_name" := EmptyString; "model_provider" := "OpenAI" ]};
              TaskOutput.rating := None;
              TaskOutput.fixed_output := None;
              TaskOutput.parent := NoParent |} in
  exists k, k ∈ keys_required_for synthetic /\
            TaskOutput.source_properties o !! k = Some EmptyString /\
            TaskOutput.validate_source_properties o
            = Raise (SourcePropertyEmpty k synthetic).
Proof.
  intros o. apply (proj2 (source_properties_error_cases o)).
  exists "model_name". split; [right; left | vm_compute; reflexivity].
Defined.

(** Another creator and one more key: the same outcome. *)
Lemma source_properties_frame_witness :
  TaskOutput.validate_source_properties
    (human_output "Test output" {[ "creator" := "john_doe"; "team" := "kiln" ]}
       None NoParent)
  = TaskOutput.validate_source_properties
      (human_output "Another output" {[ "creator" := "jane_doe" ]} None NoParent).
Proof.
  apply source_properties_frame; [reflexivity|].
  intros k Hk. simpl in Hk. apply list_elem_of_singleton in Hk as ->.
  split; split; intros Hv; vm_compute in Hv; discriminate Hv.
Defined.

(** The rated output of the workflow, and the same with other stars and a
    fixed output that is no JSON. *)
Lemma task_output_validated_fields_witness :
  let parent := Parent (run "Test input" (Parent structured_task)) in
  let o := human_output john_30 by_john_doe (Some good_rating) parent in
  let o' := {| TaskOutput.output := john_30;
               TaskOutput.source := human;
               TaskOutput.source_properties := by_john_doe;
               TaskOutput.rating :=
                 Some (stars custom S754_nan
                         {[ "req1" := float_of_Z 1; "req2" := S754_nan ]});
               TaskOutput.fixed_output := Some "Test output";
               TaskOutput.parent := parent |} in
  (TaskOutput.validate o = Ok tt <-> TaskOutput.validate o' = Ok tt) /\
  (forall e, TaskOutput.validate o = Raise e ->
     exists e', TaskOutput.validate o' = Raise e' /\
                (e' = e \/
                 exists k k', k ∈ rated_keys o /\ k' ∈ rated_keys o /\
                              e = InvalidRequirementId k /\
                              e' = InvalidRequirementId k')).
Proof.
  intros parent o o'.
  apply task_output_validated_fields; reflexivity.
Defined.

Lemma data_source_human_witness :
  DataSource.validate_properties
    (human_source {[ "created_by" := DataSource.VStr "john_doe" ]}) = Ok tt.
Proof.
  apply data_source_human.
  split; [exists "john_doe"; vm_compute; reflexivity|].
  repeat split; vm_compute; reflexivity.
Defined.

(** A prompt_type that is a number. *)
Lemma data_source_synthetic_witness :
  let props : gmap string DataSource.value :=
    {[ "model_name" := DataSource.VStr "GPT-4";
       "model_provider" := DataSource.VStr "OpenAI" ]} in
  DataSource.validate_properties
    (synthetic_source (<[ "prompt_type" := DataSource.VInt 5 ]> props))
  = DataSource.validate_properties (synthetic_source props).
Proof.
  intros props.
  exact (proj2 (data_source_synthetic props) (DataSource.VInt 5)).
Defined.

Lemma data_source_other_keys_witness :
  let self := human_source {[ "created_by" := DataSource.VStr "john_doe" ]} in
  DataSource.validate_properties
    (human_source (<[ "temperature" := DataSource.VFloat (float_of_dyadic 1 (-1)) ]>
                     (DataSource.properties self)))
  = DataSource.validate_properties self.
Proof.
  intros self.
  refine (proj1 (data_source_other_keys self "temperature" _ _)).
  intros Hin. simpl in Hin.
  repeat (apply elem_of_cons in Hin as [Hin|Hin]; [discriminate Hin|]).
  inversion Hin.
Defined.

Lemma data_source_error_cases_witness :
  DataSource.validate_properties
    (human_source {[ "model_name" := DataSource.VStr "GPT-4" ]})
  = Raise (PropertyRequired "created_by" human).
Proof.
  apply (proj1 (proj2 (data_source_error_cases _))); [reflexivity|].
  vm_compute. reflexivity.
Defined.

Lemma task_requirement_valid_witness :
  filename_safe "Requirement 1" /\
  TaskRequirement.instruction req1 <> EmptyString.
Proof.
  apply (proj1 (task_requirement_valid req1)). vm_compute. reflexivity.
Defined.

Lemma task_valid_witness :
  filename_safe "Test Task" /\
  Task.instruction structured_task <> EmptyString /\
  (forall s, Task.output_json_schema structured_task = Some s ->
             json_object_schema s = true) /\
  (forall s, Task.input_json_schema structured_task = Some s ->
             json_object_schema s = true).
Proof.
  apply (proj1 (task_valid structured_task)). vm_compute. reflexivity.
Defined.

Lemma names_are_path_segments_witness :
  Forall (fun c => c ∉ path_special) (list_ascii_of_string "Test Project") /\
  "Test Project" <> "." /\ "Test Project" <> "..".
Proof.
  apply (names_are_path_segments "name"). vm_compute. reflexivity.
Defined.

Lemma names_compose_witness :
  validate_str_field "name" NAME_FIELD ("Test" +:+ " Project") = Ok tt.
Proof.
  apply (proj1 (names_compose "name" "Test" " Project"));
    [vm_compute; reflexivity | vm_compute; reflexivity | simpl; lia].
Defined.

(** The first project of a store without settings. *)
Lemma add_project_registers_witness :
  Config_projects (add_project_to_config (H := Settings.store) project_file no_settings)
  = Some [project_file].
Proof.
  destruct (add_project_registers (H := Settings.store) project_file no_settings)
    as (l & Hl & _ & _ & Hnone).
  rewrite Hl. f_equal. apply Hnone. reflexivity.
Defined.

Lemma add_project_no_duplicate_witness :
  add_project_to_config (H := Settings.store) project_file listed_settings
  = listed_settings.
Proof.
  apply (proj1 (add_project_no_duplicate (H := Settings.store)
                  project_file listed_settings) [project_file]);
    [reflexivity | left].
Defined.

(** The project file is imported and listed; a path that is not there is
    answered with 400, the store unchanged. *)
Lemma import_project_registers_loaded_witness :
  (test_project_exists project_file = true /\
   load_test_project project_file = Some project /\
   exists l, Config_projects
               (add_project_to_config (H := Settings.store) project_file no_settings)
             = Some l /\ project_file ∈ l) /\
  (no_settings = no_settings /\
   (status_code ProjectNotFound = 400%nat <-> test_project_exists "/tmp/none" = false) /\
   (status_code ProjectNotFound = 500%nat <->
    test_project_exists "/tmp/none" = true /\ load_test_project "/tmp/none" = None)).
Proof.
  split.
  - exact (import_project_registers_loaded (H := Settings.store)
             test_project_exists load_test_project project_file no_settings).
  - exact (import_project_registers_loaded (H := Settings.store)
             test_project_exists load_test_project "/tmp/none" no_settings).
Defined.

(** A path that does not load, before the project file. *)
Lemma get_projects_lists_loadable_witness :
  (get_projects load_test_project (fun _ => Some project_file)
     (["/tmp/none"] ++ "/tmp/none" :: [project_file])).1
  = (get_projects load_test_project (fun _ => Some project_file)
       (["/tmp/none"] ++ [project_file])).1.
Proof.
  apply (proj2 (proj2 (proj2 (get_projects_lists_loadable load_test_project
                                (fun _ => Some project_file) [])))).
  reflexivity.
Defined.

End FurtherOnExamples.
